(* ===================================================================== *)
(* Ollama provider: message translation and completion transport.        *)
(*                                                                       *)
(* A shallow embedding of the provider client (convertMessages, send,    *)
(* stream) together with the properties of the translator and of the     *)
(* event sequence published by the streaming path.                       *)
(* ===================================================================== *)

From Equations Require Import Equations.
From Stdlib Require Import String Ascii List ZArith Bool Arith Lia.
From Stdlib.Strings Require Import Byte.
Import ListNotations.

Local Open Scope string_scope.
Local Open Scope list_scope.

(* --------------------------------------------------------------------- *)
(* Go strings and byte slices                                            *)
(* --------------------------------------------------------------------- *)

(** The line feed character, written '\n' in the Go source. *)
Definition LF : ascii := ascii_of_nat 10.

(** The one-character string "\n". *)
Definition nl : string := String LF "".

(** The delimiter byte handed to [ReadBytes]. *)
Definition LFb : byte := x0a.

(** Go's [string(b)] conversion of a byte slice. *)
Definition string_of_bytes (b : list byte) : string := string_of_list_byte b.

(** Go's [[]byte(s)] conversion of a string. *)
Definition bytes_of_string (s : string) : list byte := list_byte_of_string s.

(** [s != ""] as a boolean test. *)
Definition nonempty (s : string) : bool := negb (s =? "").

(* --------------------------------------------------------------------- *)
(* Package message: the conversation model consumed by the provider      *)
(* --------------------------------------------------------------------- *)

Module message.

(** Modelled from the spec: the role tag of a conversation turn; the type
    declaration lives in package message.  The four named roles are the
    ones the provider switches on or the spec lists; [RoleOther] stands for
    any further value of the role type. *)
Inductive MessageRole : Type :=
| Assistant
| User
| System
| Tool
| RoleOther (name : string).

(** Modelled from the spec: a tool-call request (name and serialized
    input) carried by an assistant turn. *)
Module ToolCall.
Record t : Type := mk { ID : string; Name : string; Input : string }.
End ToolCall.

(** Modelled from the spec: a tool-call result (call identifier and result
    content) carried by a tool turn. *)
Module ToolResult.
Record t : Type := mk { ToolCallID : string; Content : string }.
End ToolResult.

(** Modelled from the spec: a conversation turn as the provider observes
    it, through [Role], [Content().String()], [ToolCalls()] and
    [ToolResults()]. *)
Module Message.
Record t : Type := mk {
  Role : MessageRole;
  Content : string;
  ToolCalls : list ToolCall.t;
  ToolResults : list ToolResult.t
}.
End Message.

(** Modelled from the spec: the finish reason of a normalized response;
    the provider only ever reports [FinishReasonEndTurn]. *)
Inductive FinishReason : Type :=
| FinishReasonEndTurn
| FinishReasonOther (name : string).

End message.

Import message.

(* --------------------------------------------------------------------- *)
(* Wire structures of the Ollama API                                     *)
(* --------------------------------------------------------------------- *)

Module ollamaMessage.
Record t : Type := mk { Role : string; Content : string }.
End ollamaMessage.

Module ollamaUsage.
Record t : Type := mk {
  PromptTokens : Z;
  CompletionTokens : Z;
  TotalTokens : Z
}.
End ollamaUsage.

Module ollamaResponse.
Record t : Type := mk {
  Model : string;
  CreatedAt : string;
  Message : ollamaMessage.t;
  Done : bool;
  Error : string;
  Usage : ollamaUsage.t
}.
End ollamaResponse.

Module ollamaRequest.
Record t : Type := mk {
  Model : string;
  Messages : list ollamaMessage.t;
  Stream : bool
}.
End ollamaRequest.

Module ollamaOptions.
Record t : Type := mk { baseURL : string; model : string }.
End ollamaOptions.

(** The part of the provider options the client reads: the configured
    system message. *)
Module providerClientOptions.
Record t : Type := mk { systemMessage : string }.
End providerClientOptions.

Module ollamaClient.
Record t : Type := mk {
  providerOptions : providerClientOptions.t;
  options : ollamaOptions.t
}.
End ollamaClient.

(* --------------------------------------------------------------------- *)
(* convertMessages                                                       *)
(* --------------------------------------------------------------------- *)

(** [fmt.Sprintf("- Tool: %s\n  Arguments: %s\n", call.Name, call.Input)] *)
Definition toolCallLine (call : ToolCall.t) : string :=
  "- Tool: " ++ ToolCall.Name call ++ nl ++ "  Arguments: "
  ++ ToolCall.Input call ++ nl.

(** The inner loop over [msg.ToolCalls()]: [toolCallsText += ...]. *)
Definition toolCallsText (calls : list ToolCall.t) : string :=
  fold_left (fun (text : string) call => (text ++ toolCallLine call)%string)
            calls ("I need to use the following tools:" ++ nl)%string.

(** [fmt.Sprintf("Tool result for %s: %s", result.ToolCallID, result.Content)] *)
Definition toolResultText (result : ToolResult.t) : string :=
  "Tool result for " ++ ToolResult.ToolCallID result ++ ": "
  ++ ToolResult.Content result.

(** One iteration of the loop over the history: the [switch msg.Role]
    applied to the slice built so far. *)
Definition convertMessage (ollamaMessages : list ollamaMessage.t)
    (msg : Message.t) : list ollamaMessage.t :=
  match Message.Role msg with
  | User =>
      ollamaMessages ++ [ollamaMessage.mk "user" (Message.Content msg)]
  | Assistant =>
      let ollamaMessages :=
        if nonempty (Message.Content msg)
        then ollamaMessages ++ [ollamaMessage.mk "assistant" (Message.Content msg)]
        else ollamaMessages in
      if (0 <? List.length (Message.ToolCalls msg))%nat
      then ollamaMessages
             ++ [ollamaMessage.mk "assistant" (toolCallsText (Message.ToolCalls msg))]
      else ollamaMessages
  | Tool =>
      fold_left
        (fun acc result => acc ++ [ollamaMessage.mk "user" (toolResultText result)])
        (Message.ToolResults msg) ollamaMessages
  | _ => ollamaMessages
  end.

Definition convertMessages (o : ollamaClient.t) (messages : list Message.t)
  : list ollamaMessage.t :=
  let ollamaMessages := [] in
  let ollamaMessages :=
    if nonempty (providerClientOptions.systemMessage (ollamaClient.providerOptions o))
    then ollamaMessages
           ++ [ollamaMessage.mk "system"
                 (providerClientOptions.systemMessage (ollamaClient.providerOptions o))]
    else ollamaMessages in
  fold_left convertMessage messages ollamaMessages.

(* --------------------------------------------------------------------- *)
(* Errors                                                                *)
(* --------------------------------------------------------------------- *)

(** Go [error] values: the sentinel [io.EOF], which the read loop
    compares against, and errors that are known by their message. *)
Inductive error : Type :=
| io_EOF
| errorString (msg : string).

(** The [Error()] method. *)
Definition error_text (err : error) : string :=
  match err with
  | io_EOF => "EOF"
  | errorString msg => msg
  end.

(** [fmt.Errorf(prefix + "%w", err)] *)
Definition Errorf_w (prefix : string) (err : error) : error :=
  errorString (prefix ++ error_text err).

(** [fmt.Errorf(prefix + "%s", s)] *)
Definition Errorf_s (prefix : string) (s : string) : error :=
  errorString (prefix ++ s).

(** A Go result pair [(v, err)]: [inl v] when [err == nil]. *)
Definition result (A : Type) : Type := (A + error)%type.

Definition bind {A B : Type} (r : result A) (k : A -> result B) : result B :=
  match r with
  | inl v => k v
  | inr err => inr err
  end.

(** [if err != nil { return nil, fmt.Errorf(prefix + "%w", err) }] *)
Definition wrap {A : Type} (prefix : string) (r : result A) : result A :=
  match r with
  | inl v => inl v
  | inr err => inr (Errorf_w prefix err)
  end.

Notation "x <- r ;; k" := (bind r (fun x => k))
  (at level 61, r at next level, right associativity).

(* --------------------------------------------------------------------- *)
(* Package provider: normalized responses and events                     *)
(* --------------------------------------------------------------------- *)

(** Modelled from the spec: the token usage of a normalized response
    (input and output counters, both int64). *)
Module TokenUsage.
Record t : Type := mk { InputTokens : Z; OutputTokens : Z }.
End TokenUsage.

(** Modelled from the spec: the normalized response (content, usage,
    finish reason). *)
Module ProviderResponse.
Record t : Type := mk {
  Content : string;
  Usage : TokenUsage.t;
  FinishReason : FinishReason
}.
End ProviderResponse.

(** Modelled from the spec: the tags of the normalized events the
    streaming path produces. *)
Inductive EventType : Type :=
| EventContentDelta
| EventComplete
| EventError.

(** Modelled from the spec: a normalized event, with the fields the
    streaming path sets; a field left out of the Go composite literal has
    its zero value ([""], [nil]). *)
Module ProviderEvent.
Record t : Type := mk {
  Type_ : EventType;
  Content : string;
  Response : option ProviderResponse.t;
  Error : option error
}.
End ProviderEvent.

(** [ProviderEvent{Type: EventError, Error: err}] *)
Definition errorEvent (err : error) : ProviderEvent.t :=
  ProviderEvent.mk EventError "" None (Some err).

(** [ProviderEvent{Type: EventContentDelta, Content: content}] *)
Definition deltaEvent (content : string) : ProviderEvent.t :=
  ProviderEvent.mk EventContentDelta content None None.

(** [ProviderEvent{Type: EventComplete, Response: &response}] *)
Definition completeEvent (response : ProviderResponse.t) : ProviderEvent.t :=
  ProviderEvent.mk EventComplete "" (Some response) None.

(* --------------------------------------------------------------------- *)
(* The HTTP response body and its readers                                *)
(* --------------------------------------------------------------------- *)

(** [resp.Body]: the bytes the backend delivers, and the error the read
    that follows them fails with: [io_EOF] when the backend closed the
    stream, another error for a transport failure (a reset connection, a
    cancelled context, the client timeout). *)
Module Body.
Record t : Type := mk { data : list byte; fin : error }.
End Body.

(** The bytes of [buf] up to and including the first [delim], and the
    bytes after it; [None] when [buf] has no [delim]. *)
Fixpoint splitDelim (delim : byte) (buf : list byte)
  : option (list byte * list byte) :=
  match buf with
  | [] => None
  | b :: rest =>
      if Byte.eqb b delim then Some ([b], rest)
      else match splitDelim delim rest with
           | Some (line, rest') => Some (b :: line, rest')
           | None => None
           end
  end.

(** [reader.ReadBytes(delim)]: reads until the first occurrence of
    [delim] and returns the data up to and including it; when the read
    fails before a delimiter is found, returns the data read before the
    error and the error itself.  The third component is the reader after
    the call. *)
Definition ReadBytes (reader : Body.t) (delim : byte)
  : list byte * option error * Body.t :=
  match splitDelim delim (Body.data reader) with
  | Some (line, rest) => (line, None, Body.mk rest (Body.fin reader))
  | None => (Body.data reader, Some (Body.fin reader), Body.mk [] (Body.fin reader))
  end.

(** [io.ReadAll(body)]: all the data, and no error when the read ends
    with [io.EOF]. *)
Definition io_ReadAll (body : Body.t) : list byte * option error :=
  (Body.data body,
   match Body.fin body with
   | io_EOF => None
   | err => Some err
   end).

(** [http.Response], with the two fields the client reads. *)
Module Response.
Record t : Type := mk { StatusCode : Z; Body : Body.t }.
End Response.

(** [http.Request] as the client builds it. *)
Module Request.
Record t : Type := mk {
  Method : string;
  URL : string;
  Header : list (string * string);
  Body : list byte
}.
End Request.

Definition http_StatusOK : Z := 200.

(** [req.Header.Set(key, value)] *)
Definition Header_Set (req : Request.t) (key value : string) : Request.t :=
  Request.mk (Request.Method req) (Request.URL req)
    ((key, value)
       :: filter (fun kv => negb (fst kv =? key)) (Request.Header req))
    (Request.Body req).

Definition inspect {A : Type} (a : A) : { b : A | a = b } :=
  exist _ a eq_refl.

(* --------------------------------------------------------------------- *)
(* The world outside the client                                          *)
(* --------------------------------------------------------------------- *)

(** What the client calls but does not define: the JSON codec of
    encoding/json, the request constructor of net/http and the round trip
    of the HTTP client.  An instance fixes how they answer during one
    call. *)
Class Env : Type := {
  Context : Type;
  BaseTool : Type;
  json_Marshal : ollamaRequest.t -> result (list byte);
  json_Unmarshal : list byte -> result ollamaResponse.t;
  http_NewRequestWithContext :
    Context -> string -> string -> list byte -> result Request.t;
  client_Do : Request.t -> result Response.t
}.

(* --------------------------------------------------------------------- *)
(* send                                                                  *)
(* --------------------------------------------------------------------- *)

Section Transport.

Context {E : Env}.

(** The request both modes post: [POST {baseURL}/api/chat] with the JSON
    content type.  (The debug log of the request writes to the log only
    and is left out.) *)
Definition newChatRequest (o : ollamaClient.t) (ctx : Context)
    (jsonData : list byte) : result Request.t :=
  http_NewRequestWithContext ctx "POST"
    (ollamaOptions.baseURL (ollamaClient.options o) ++ "/api/chat") jsonData.

Definition send (o : ollamaClient.t) (ctx : Context)
    (messages : list Message.t) (tools : list BaseTool)
  : result ProviderResponse.t :=
  let ollamaMessages := convertMessages o messages in
  let reqBody :=
    ollamaRequest.mk (ollamaOptions.model (ollamaClient.options o))
      ollamaMessages false in
  jsonData <- wrap "failed to marshal request: " (json_Marshal reqBody) ;;
  req <- wrap "failed to create request: " (newChatRequest o ctx jsonData) ;;
  let req := Header_Set req "Content-Type" "application/json" in
  resp <- wrap "failed to send request: " (client_Do req) ;;
  match io_ReadAll (Response.Body resp) with
  | (_, Some err) => inr (Errorf_w "failed to read response: " err)
  | (body, None) =>
      if negb (Response.StatusCode resp =? http_StatusOK)%Z
      then inr (Errorf_s "ollama API error: " (string_of_bytes body))
      else
        ollamaResp <- wrap "failed to unmarshal response: " (json_Unmarshal body) ;;
        if nonempty (ollamaResponse.Error ollamaResp)
        then inr (Errorf_s "ollama API error: " (ollamaResponse.Error ollamaResp))
        else
          inl (ProviderResponse.mk
                 (ollamaMessage.Content (ollamaResponse.Message ollamaResp))
                 (TokenUsage.mk
                    (ollamaUsage.PromptTokens (ollamaResponse.Usage ollamaResp))
                    (ollamaUsage.CompletionTokens (ollamaResponse.Usage ollamaResp)))
                 FinishReasonEndTurn)
  end.

(* --------------------------------------------------------------------- *)
(* stream                                                                *)
(* --------------------------------------------------------------------- *)

(** The complete event of a fragment with [Done] set. *)
Definition doneEvent (fullContent : string) (ollamaResp : ollamaResponse.t)
  : ProviderEvent.t :=
  completeEvent
    (ProviderResponse.mk fullContent
       (TokenUsage.mk
          (ollamaUsage.PromptTokens (ollamaResponse.Usage ollamaResp))
          (ollamaUsage.CompletionTokens (ollamaResponse.Usage ollamaResp)))
       FinishReasonEndTurn).

(** The complete event sent after the loop: [Usage] is left out of the
    composite literal and has its zero value. *)
Definition eofEvent (fullContent : string) : ProviderEvent.t :=
  completeEvent
    (ProviderResponse.mk fullContent (TokenUsage.mk 0 0) FinishReasonEndTurn).

(** The content-delta step of one iteration: the events sent and the
    value of [fullContent] after it. *)
Definition sendDelta (fullContent : string) (ollamaResp : ollamaResponse.t)
  : list ProviderEvent.t * string :=
  let content := ollamaMessage.Content (ollamaResponse.Message ollamaResp) in
  if nonempty content
  then ([deltaEvent content], (fullContent ++ content)%string)
  else ([], fullContent).

(** The read loop of the goroutine: the events sent on the channel from
    the current state of the reader and of [fullContent] until the
    goroutine returns.  Every iteration that goes on has consumed a
    delimiter, so the unread data shrinks. *)
Equations? stream_loop (reader : Body.t) (fullContent : string)
  : list ProviderEvent.t by wf (List.length (Body.data reader)) lt :=
  stream_loop reader fullContent with inspect (ReadBytes reader LFb) := {
    | exist _ (line, Some io_EOF, _) _ => [eofEvent fullContent]
    | exist _ (line, Some err, _) _ =>
        [errorEvent (Errorf_w "error reading stream: " err)]
    | exist _ (line, None, reader') Hread
        with (List.length line =? 0)%nat := {
        | true => stream_loop reader' fullContent
        | false with json_Unmarshal line := {
            | inr err =>
                [errorEvent (Errorf_w "failed to unmarshal response: " err)]
            | inl ollamaResp
                with nonempty (ollamaResponse.Error ollamaResp) := {
                | true =>
                    [errorEvent
                       (Errorf_s "ollama API error: "
                          (ollamaResponse.Error ollamaResp))]
                | false with ollamaResponse.Done ollamaResp := {
                    | true =>
                        fst (sendDelta fullContent ollamaResp)
                          ++ [doneEvent
                                (snd (sendDelta fullContent ollamaResp))
                                ollamaResp]
                    | false =>
                        fst (sendDelta fullContent ollamaResp)
                          ++ stream_loop reader'
                               (snd (sendDelta fullContent ollamaResp)) } } } } }.
Proof.
  all: unfold ReadBytes in Hread;
    destruct (splitDelim LFb (Body.data reader)) as [[l r]|] eqn:Hsplit;
    [ injection Hread as _ <-; simpl | discriminate ];
    clear -Hsplit;
    revert l r Hsplit;
    induction (Body.data reader) as [|b buf IH]; intros l r Hsplit;
    simpl in Hsplit; [ discriminate | ];
    destruct (Byte.eqb b LFb);
    [ injection Hsplit as _ <-; simpl; lia | ];
    destruct (splitDelim LFb buf) as [[l' r']|]; [ | discriminate ];
    injection Hsplit as _ <-; specialize (IH _ _ eq_refl); simpl; lia.
Qed.

(** The body of [go func() { ... }]: the events sent on the channel
    before it is closed. *)
Definition stream_goroutine (req : Request.t) : list ProviderEvent.t :=
  match client_Do req with
  | inr err => [errorEvent (Errorf_w "failed to send request: " err)]
  | inl resp =>
      if negb (Response.StatusCode resp =? http_StatusOK)%Z
      then
        let body := fst (io_ReadAll (Response.Body resp)) in
        [errorEvent (Errorf_s "ollama API error: " (string_of_bytes body))]
      else
        let reader := Response.Body resp in
        let fullContent := "" in
        stream_loop reader fullContent
  end.

(** [stream]: the sequence of events the consumer receives from the
    returned channel, in order, up to its closure. *)
Definition stream (o : ollamaClient.t) (ctx : Context)
    (messages : list Message.t) (tools : list BaseTool)
  : list ProviderEvent.t :=
  let ollamaMessages := convertMessages o messages in
  let reqBody :=
    ollamaRequest.mk (ollamaOptions.model (ollamaClient.options o))
      ollamaMessages true in
  match json_Marshal reqBody with
  | inr err => [errorEvent (Errorf_w "failed to marshal request: " err)]
  | inl jsonData =>
      match newChatRequest o ctx jsonData with
      | inr err => [errorEvent (Errorf_w "failed to create request: " err)]
      | inl req =>
          let req := Header_Set req "Content-Type" "application/json" in
          stream_goroutine req
      end
  end.

End Transport.

(* --------------------------------------------------------------------- *)
(* A JSON codec for the wire schema                                      *)
(* --------------------------------------------------------------------- *)

(** A decoder and an encoder for the part of JSON the wire schema uses
    (objects, arrays, strings with the short escapes, integers, booleans,
    null).  On that part it follows encoding/json: white space around the
    value is skipped, an input that holds no value is an error, absent
    members keep their zero value, unknown members are ignored, a member
    of the wrong type is an error.  It is narrower than encoding/json in
    that member names are matched exactly, numbers are integers, and the
    error messages are kept to their first words.  The codec instantiates
    [Env] in the scenarios below; the general properties of [send] and
    [stream] are proved for every [Env] and do not depend on it. *)
Module json.

#[warnings="-register-all"]
Inductive value : Type :=
| Null
| Bool (b : bool)
| Number (n : Z)
| Str (s : string)
| Array (items : list value)
| Object (members : list (string * value)).

Definition unexpectedEnd : error := errorString "unexpected end of JSON input".
Definition invalidCharacter : error := errorString "invalid character".
Definition cannotUnmarshal : error := errorString "json: cannot unmarshal".

Definition isSpace (b : byte) : bool :=
  match b with
  | x20 | x09 | x0a | x0d => true
  | _ => false
  end.

Fixpoint skipSpace (input : list byte) : list byte :=
  match input with
  | b :: rest => if isSpace b then skipSpace rest else input
  | [] => []
  end.

Definition digit (b : byte) : option Z :=
  match b with
  | x30 => Some 0%Z | x31 => Some 1%Z | x32 => Some 2%Z | x33 => Some 3%Z
  | x34 => Some 4%Z | x35 => Some 5%Z | x36 => Some 6%Z | x37 => Some 7%Z
  | x38 => Some 8%Z | x39 => Some 9%Z
  | _ => None
  end.

(** The digits at the head of [input], read in base ten onto [acc]. *)
Fixpoint readDigits (acc : Z) (input : list byte) : Z * list byte :=
  match input with
  | b :: rest =>
      match digit b with
      | Some d => readDigits (10 * acc + d) rest
      | None => (acc, input)
      end
  | [] => (acc, [])
  end.

Definition readNumber (input : list byte) : result (Z * list byte) :=
  match input with
  | b :: rest =>
      match digit b with
      | Some _ => inl (readDigits 0 input)
      | None => inr invalidCharacter
      end
  | [] => inr unexpectedEnd
  end.

(** The characters of a string literal after its opening quote. *)
Fixpoint readString (input : list byte) : result (string * list byte) :=
  match input with
  | [] => inr unexpectedEnd
  | x22 :: rest => inl (EmptyString, rest)
  | x5c :: esc :: rest =>
      match
        match esc with
        | x22 => Some x22 | x5c => Some x5c | x2f => Some x2f
        | x6e => Some x0a | x74 => Some x09 | x72 => Some x0d
        | x62 => Some x08 | x66 => Some x0c
        | _ => None
        end
      with
      | Some b =>
          match readString rest with
          | inl (s, rest') => inl (String (ascii_of_byte b) s, rest')
          | inr err => inr err
          end
      | None => inr invalidCharacter
      end
  | b :: rest =>
      match readString rest with
      | inl (s, rest') => inl (String (ascii_of_byte b) s, rest')
      | inr err => inr err
      end
  end.

Section Composite.

Variable readValue : list byte -> result (value * list byte).

(** The items of an array after [[] or after a comma. *)
Fixpoint readItems (fuel : nat) (input : list byte)
  : result (list value * list byte) :=
  match fuel with
  | O => inr unexpectedEnd
  | S fuel' =>
      match readValue input with
      | inr err => inr err
      | inl (v, rest) =>
          match skipSpace rest with
          | x2c :: rest' =>
              match readItems fuel' rest' with
              | inl (vs, rest'') => inl (v :: vs, rest'')
              | inr err => inr err
              end
          | x5d :: rest' => inl ([v], rest')
          | [] => inr unexpectedEnd
          | _ => inr invalidCharacter
          end
      end
  end.

(** The members of an object after [{] or after a comma. *)
Fixpoint readMembers (fuel : nat) (input : list byte)
  : result (list (string * value) * list byte) :=
  match fuel with
  | O => inr unexpectedEnd
  | S fuel' =>
      match skipSpace input with
      | x22 :: rest =>
          match readString rest with
          | inr err => inr err
          | inl (key, rest1) =>
              match skipSpace rest1 with
              | x3a :: rest2 =>
                  match readValue rest2 with
                  | inr err => inr err
                  | inl (v, rest3) =>
                      match skipSpace rest3 with
                      | x2c :: rest4 =>
                          match readMembers fuel' rest4 with
                          | inl (ms, rest5) => inl ((key, v) :: ms, rest5)
                          | inr err => inr err
                          end
                      | x7d :: rest4 => inl ([(key, v)], rest4)
                      | [] => inr unexpectedEnd
                      | _ => inr invalidCharacter
                      end
                  end
              | [] => inr unexpectedEnd
              | _ => inr invalidCharacter
              end
          end
      | [] => inr unexpectedEnd
      | _ => inr invalidCharacter
      end
  end.

End Composite.

(** One JSON value at the head of [input], after white space. *)
Fixpoint readValue (fuel : nat) (input : list byte)
  : result (value * list byte) :=
  match fuel with
  | O => inr unexpectedEnd
  | S fuel' =>
      match skipSpace input with
      | [] => inr unexpectedEnd
      | x6e :: x75 :: x6c :: x6c :: rest => inl (Null, rest)
      | x74 :: x72 :: x75 :: x65 :: rest => inl (Bool true, rest)
      | x66 :: x61 :: x6c :: x73 :: x65 :: rest => inl (Bool false, rest)
      | x22 :: rest =>
          match readString rest with
          | inl (s, rest') => inl (Str s, rest')
          | inr err => inr err
          end
      | x2d :: rest =>
          match readNumber rest with
          | inl (n, rest') => inl (Number (- n), rest')
          | inr err => inr err
          end
      | x5b :: rest =>
          match skipSpace rest with
          | x5d :: rest' => inl (Array [], rest')
          | _ =>
              match readItems (readValue fuel') fuel' rest with
              | inl (vs, rest') => inl (Array vs, rest')
              | inr err => inr err
              end
          end
      | x7b :: rest =>
          match skipSpace rest with
          | x7d :: rest' => inl (Object [], rest')
          | _ =>
              match readMembers (readValue fuel') fuel' rest with
              | inl (ms, rest') => inl (Object ms, rest')
              | inr err => inr err
              end
          end
      | _ :: _ =>
          match readNumber (skipSpace input) with
          | inl (n, rest') => inl (Number n, rest')
          | inr err => inr err
          end
      end
  end.

(** The whole of [data] as one JSON value. *)
Definition parse (data : list byte) : result value :=
  match readValue (S (List.length data)) data with
  | inr err => inr err
  | inl (v, rest) =>
      match skipSpace rest with
      | [] => inl v
      | _ => inr invalidCharacter
      end
  end.

(** [string], [bool] and [int64] members; [null] leaves a member as it
    is. *)
Definition asString (v : value) (old : string) : result string :=
  match v with
  | Str s => inl s
  | Null => inl old
  | _ => inr cannotUnmarshal
  end.

Definition asBool (v : value) (old : bool) : result bool :=
  match v with
  | Bool b => inl b
  | Null => inl old
  | _ => inr cannotUnmarshal
  end.

Definition asInt64 (v : value) (old : Z) : result Z :=
  match v with
  | Number n => inl n
  | Null => inl old
  | _ => inr cannotUnmarshal
  end.

(** Decoding an object into a struct: the members are stored in the
    order they are read, onto the value the struct already has. *)
Definition intoStruct {A : Type}
    (field : string -> value -> A -> result A) (v : value) (old : A)
  : result A :=
  match v with
  | Object members =>
      fold_left
        (fun (acc : result A) (m : string * value) =>
           match acc with
           | inl a => field (fst m) (snd m) a
           | inr err => inr err
           end)
        members (inl old)
  | Null => inl old
  | _ => inr cannotUnmarshal
  end.

Definition messageField (key : string) (v : value) (m : ollamaMessage.t)
  : result ollamaMessage.t :=
  if (key =? "role")%string then
    match asString v (ollamaMessage.Role m) with
    | inl s => inl (ollamaMessage.mk s (ollamaMessage.Content m))
    | inr err => inr err
    end
  else if (key =? "content")%string then
    match asString v (ollamaMessage.Content m) with
    | inl s => inl (ollamaMessage.mk (ollamaMessage.Role m) s)
    | inr err => inr err
    end
  else inl m.

Definition usageField (key : string) (v : value) (u : ollamaUsage.t)
  : result ollamaUsage.t :=
  if (key =? "prompt_tokens")%string then
    match asInt64 v (ollamaUsage.PromptTokens u) with
    | inl n =>
        inl (ollamaUsage.mk n (ollamaUsage.CompletionTokens u)
               (ollamaUsage.TotalTokens u))
    | inr err => inr err
    end
  else if (key =? "completion_tokens")%string then
    match asInt64 v (ollamaUsage.CompletionTokens u) with
    | inl n =>
        inl (ollamaUsage.mk (ollamaUsage.PromptTokens u) n
               (ollamaUsage.TotalTokens u))
    | inr err => inr err
    end
  else if (key =? "total_tokens")%string then
    match asInt64 v (ollamaUsage.TotalTokens u) with
    | inl n =>
        inl (ollamaUsage.mk (ollamaUsage.PromptTokens u)
               (ollamaUsage.CompletionTokens u) n)
    | inr err => inr err
    end
  else inl u.

Definition responseField (key : string) (v : value) (r : ollamaResponse.t)
  : result ollamaResponse.t :=
  let '(ollamaResponse.mk model createdAt msg done err usage) := r in
  if (key =? "model")%string then
    match asString v model with
    | inl s => inl (ollamaResponse.mk s createdAt msg done err usage)
    | inr e => inr e
    end
  else if (key =? "created_at")%string then
    match asString v createdAt with
    | inl s => inl (ollamaResponse.mk model s msg done err usage)
    | inr e => inr e
    end
  else if (key =? "message")%string then
    match intoStruct messageField v msg with
    | inl m => inl (ollamaResponse.mk model createdAt m done err usage)
    | inr e => inr e
    end
  else if (key =? "done")%string then
    match asBool v done with
    | inl b => inl (ollamaResponse.mk model createdAt msg b err usage)
    | inr e => inr e
    end
  else if (key =? "error")%string then
    match asString v err with
    | inl s => inl (ollamaResponse.mk model createdAt msg done s usage)
    | inr e => inr e
    end
  else if (key =? "usage")%string then
    match intoStruct usageField v usage with
    | inl u => inl (ollamaResponse.mk model createdAt msg done err u)
    | inr e => inr e
    end
  else inl r.

(** The zero value of [ollamaResponse], as [var ollamaResp ollamaResponse]
    declares it. *)
Definition zeroResponse : ollamaResponse.t :=
  ollamaResponse.mk "" "" (ollamaMessage.mk "" "") false ""
    (ollamaUsage.mk 0 0 0).

(** [json.Unmarshal(data, &ollamaResp)] on a zero [ollamaResp]. *)
Definition Unmarshal (data : list byte) : result ollamaResponse.t :=
  match parse data with
  | inr err => inr err
  | inl v => intoStruct responseField v zeroResponse
  end.

(** A string literal: quotes, backslashes and the short control
    characters are escaped. *)
Fixpoint quoteBytes (s : list byte) : list byte :=
  match s with
  | [] => []
  | x22 :: rest => x5c :: x22 :: quoteBytes rest
  | x5c :: rest => x5c :: x5c :: quoteBytes rest
  | x0a :: rest => x5c :: x6e :: quoteBytes rest
  | x0d :: rest => x5c :: x72 :: quoteBytes rest
  | x09 :: rest => x5c :: x74 :: quoteBytes rest
  | b :: rest => b :: quoteBytes rest
  end.

Definition quote (s : string) : list byte :=
  x22 :: quoteBytes (bytes_of_string s) ++ [x22].

Definition marshalMessage (m : ollamaMessage.t) : list byte :=
  bytes_of_string "{" ++ quote "role" ++ [x3a] ++ quote (ollamaMessage.Role m)
    ++ [x2c] ++ quote "content" ++ [x3a] ++ quote (ollamaMessage.Content m)
    ++ bytes_of_string "}".

Fixpoint marshalMessages (ms : list ollamaMessage.t) : list byte :=
  match ms with
  | [] => []
  | [m] => marshalMessage m
  | m :: rest => marshalMessage m ++ [x2c] ++ marshalMessages rest
  end.

(** [json.Marshal(reqBody)]; the options map is never set by the client
    and is omitted. *)
Definition Marshal (req : ollamaRequest.t) : result (list byte) :=
  inl (bytes_of_string "{" ++ quote "model" ++ [x3a]
         ++ quote (ollamaRequest.Model req)
         ++ [x2c] ++ quote "messages" ++ [x3a]
         ++ bytes_of_string "[" ++ marshalMessages (ollamaRequest.Messages req)
         ++ bytes_of_string "]"
         ++ [x2c] ++ quote "stream" ++ [x3a]
         ++ bytes_of_string (if ollamaRequest.Stream req then "true" else "false")
         ++ bytes_of_string "}").

End json.

(* --------------------------------------------------------------------- *)
(* Scripted backends                                                     *)
(* --------------------------------------------------------------------- *)

(** JSON text written with ['] for the double quote of the wire. *)
Fixpoint wire (s : string) : list byte :=
  match s with
  | EmptyString => []
  | String c rest =>
      (if Ascii.eqb c "'" then x22 else byte_of_ascii c) :: wire rest
  end.

(** A backend that answers every request with [answer]. *)
Definition scripted (answer : result Response.t) : Env := {|
  Context := unit;
  BaseTool := unit;
  json_Marshal := json.Marshal;
  json_Unmarshal := json.Unmarshal;
  http_NewRequestWithContext :=
    fun _ method url body => inl (Request.mk method url [] body);
  client_Do := fun _ => answer
|}.

(** A backend that answers with [status] and the whole of [data]. *)
Definition serving (status : Z) (data : list byte) : Env :=
  scripted (inl (Response.mk status (Body.mk data io_EOF))).

Definition client (systemMessage : string) : ollamaClient.t :=
  ollamaClient.mk (providerClientOptions.mk systemMessage)
    (ollamaOptions.mk "http://localhost:11434" "llama3").

Definition userTurn (text : string) : Message.t :=
  Message.mk User text [] [].

(** The streaming scenario of the spec: three records, the last one with
    the done flag and the usage counters. *)
Definition countingData : list byte :=
  wire "{'message':{'content':'1'},'done':false}" ++ [LFb]
    ++ wire "{'message':{'content':'2'},'done':false}" ++ [LFb]
    ++ wire "{'message':{'content':''},'done':true,'usage':{'prompt_tokens':2,'completion_tokens':2}}"
    ++ [LFb].

Definition countingBackend : Env := serving 200 countingData.

(** A backend that closes the stream without a done fragment; its first
    fragment carries a usage counter all the same. *)
Definition unfinishedData : list byte :=
  wire "{'message':{'content':'par'},'done':false,'usage':{'prompt_tokens':7}}"
    ++ [LFb] ++ wire "{'message':{'content':''},'done':false}" ++ [LFb]
    ++ wire "{'message':{'content':'tial'},'done':false}" ++ [LFb].

Definition unfinishedBackend : Env := serving 200 unfinishedData.

Definition unfinishedFragments : list ollamaResponse.t :=
  [ollamaResponse.mk "" "" (ollamaMessage.mk "" "par") false ""
     (ollamaUsage.mk 7 0 0);
   ollamaResponse.mk "" "" (ollamaMessage.mk "" "") false ""
     (ollamaUsage.mk 0 0 0);
   ollamaResponse.mk "" "" (ollamaMessage.mk "" "tial") false ""
     (ollamaUsage.mk 0 0 0)].

(** A backend that reports an error after a first increment and then
    closes the stream. *)
Definition failingData : list byte :=
  wire "{'message':{'content':'par'},'done':false}" ++ [LFb]
    ++ wire "{'error':'model unloaded'}" ++ [LFb].

Definition failingBackend : Env := serving 200 failingData.

Definition failingFragments : list ollamaResponse.t :=
  [ollamaResponse.mk "" "" (ollamaMessage.mk "" "par") false ""
     (ollamaUsage.mk 0 0 0);
   ollamaResponse.mk "" "" (ollamaMessage.mk "" "") false "model unloaded"
     (ollamaUsage.mk 0 0 0)].

(** A keep-alive line followed by a complete answer. *)
Definition keepAliveBackend : Env :=
  serving 200
    ([LFb] ++ wire "{'message':{'content':'hi'},'done':true}" ++ [LFb]).

(** The synchronous scenario of the spec, as one record. *)
Definition helloLine : list byte :=
  wire "{'message':{'role':'assistant','content':'hello'},'done':true,'usage':{'prompt_tokens':3,'completion_tokens':1}}"
    ++ [LFb].

(* --------------------------------------------------------------------- *)
(* Views used by the statements                                          *)
(* --------------------------------------------------------------------- *)

(** The Wire Turns one history turn contributes: an iteration of the loop
    started on the empty slice. *)
Definition turnsOf (msg : Message.t) : list ollamaMessage.t :=
  convertMessage [] msg.

Definition isSystemTurn (t : ollamaMessage.t) : bool :=
  (ollamaMessage.Role t =? "system")%string.

(** The roles the translator switches on. *)
Definition recognized (role : MessageRole) : bool :=
  match role with
  | User | Assistant | Tool => true
  | _ => false
  end.

(** The payloads of the content-delta events of a trace, in emission
    order. *)
Definition deltaPayloads (events : list ProviderEvent.t) : list string :=
  flat_map
    (fun ev =>
       match ProviderEvent.Type_ ev with
       | EventContentDelta => [ProviderEvent.Content ev]
       | _ => []
       end)
    events.

(** A terminal event: complete or error. *)
Definition isTerminal (ev : ProviderEvent.t) : bool :=
  match ProviderEvent.Type_ ev with
  | EventComplete | EventError => true
  | EventContentDelta => false
  end.

(** [events] holds a complete event that carries [response]. *)
Definition completesWith (events : list ProviderEvent.t)
    (response : ProviderResponse.t) : Prop :=
  exists ev,
    In ev events
    /\ ProviderEvent.Type_ ev = EventComplete
    /\ ProviderEvent.Response ev = Some response.

(** The newline-terminated records of [data], in order, each with its
    delimiter; [pending] is the part of the current record already passed.
    Data after the last delimiter belongs to no record. *)
Fixpoint recordsFrom (pending data : list byte) : list (list byte) :=
  match data with
  | [] => []
  | b :: rest =>
      if Byte.eqb b LFb
      then (pending ++ [b]) :: recordsFrom [] rest
      else recordsFrom (pending ++ [b]) rest
  end.

Definition records (data : list byte) : list (list byte) :=
  recordsFrom [] data.

(** The message content of a fragment. *)
Definition contentOf (ollamaResp : ollamaResponse.t) : string :=
  ollamaMessage.Content (ollamaResponse.Message ollamaResp).

(** The non-empty contents of a sequence of fragments, in order. *)
Definition increments (fragments : list ollamaResponse.t) : list string :=
  filter nonempty (map contentOf fragments).

(** A fragment that neither fails nor ends the call. *)
Definition continues (ollamaResp : ollamaResponse.t) : Prop :=
  ollamaResponse.Error ollamaResp = ""
  /\ ollamaResponse.Done ollamaResp = false.

(** The 2xx success class of HTTP status codes. *)
Definition is2xx (status : Z) : bool :=
  ((200 <=? status) && (status <? 300))%Z.

Section Views.

Context {E : Env}.

(** The fragments the records of [data] decode to, in delivery order. *)
Definition decoded (data : list byte) : list ollamaResponse.t :=
  flat_map
    (fun line =>
       match json_Unmarshal line with
       | inl ollamaResp => [ollamaResp]
       | inr _ => []
       end)
    (records data).

(** The increments the backend delivers, in delivery order: the non-empty
    contents of the fragments its records decode to. *)
Definition delivered (data : list byte) : list string :=
  increments (decoded data).

(** The first delivered fragment that has the done flag set. *)
Definition firstDone (data : list byte) : option ollamaResponse.t :=
  find ollamaResponse.Done (decoded data).

(** The records of [data] decode, one by one, to [fragments]. *)
Definition decodesTo (data : list byte) (fragments : list ollamaResponse.t)
  : Prop :=
  map json_Unmarshal (records data) = map inl fragments.

(** The backend answers the call with [resp]: the request is encoded,
    built and sent without error. *)
Definition answers (o : ollamaClient.t) (ctx : Context)
    (messages : list Message.t) (streaming : bool) (resp : Response.t)
  : Prop :=
  exists jsonData req,
    json_Marshal
      (ollamaRequest.mk (ollamaOptions.model (ollamaClient.options o))
         (convertMessages o messages) streaming)
    = inl jsonData
    /\ newChatRequest o ctx jsonData = inl req
    /\ client_Do (Header_Set req "Content-Type" "application/json") = inl resp.

End Views.

(* --------------------------------------------------------------------- *)
(* Package models: the Ollama catalogue                                  *)
(* --------------------------------------------------------------------- *)

Module models.

Definition ModelID : Type := string.
Definition ModelProvider : Type := string.

(** Modelled from the spec: the catalogue entry of a model; the struct is
    declared outside the catalogue file, and its fields are the ones the
    catalogue literal names.  The costs are numeric; the catalogue only
    writes the literal 0 for them. *)
Module Model.
Record t : Type := mk {
  ID : ModelID;
  Name : string;
  Provider : ModelProvider;
  APIModel : string;
  CostPer1MIn : Z;
  CostPer1MOut : Z;
  CostPer1MInCached : Z;
  CostPer1MOutCached : Z;
  ContextWindow : Z;
  DefaultMaxTokens : Z;
  CanReason : bool
}.
End Model.

Definition OllamaLlama3 : ModelID := "ollama.llama3".
Definition OllamaCodeLlama : ModelID := "ollama.codellama".
Definition OllamaMistral : ModelID := "ollama.mistral".
Definition OllamaCustom : ModelID := "ollama.custom".

Definition ProviderOllama : ModelProvider := "ollama".

(** The map literal [OllamaModels], as the list of its key-value pairs in
    the order of the source. *)
Definition OllamaModels : list (ModelID * Model.t) :=
  [ (OllamaLlama3,
     Model.mk OllamaLlama3 "Ollama: Llama 3" ProviderOllama "llama3"
       0 0 0 0 8192 4096 false);
    (OllamaCodeLlama,
     Model.mk OllamaCodeLlama "Ollama: CodeLlama" ProviderOllama "codellama"
       0 0 0 0 8192 4096 false);
    (OllamaMistral,
     Model.mk OllamaMistral "Ollama: Mistral" ProviderOllama "mistral"
       0 0 0 0 8192 4096 false);
    (OllamaCustom,
     Model.mk OllamaCustom "Ollama: Custom Model" ProviderOllama ""
       0 0 0 0 8192 4096 false) ].

(** The map index [m, ok := OllamaModels[id]]. *)
Fixpoint lookup (id : ModelID) (entries : list (ModelID * Model.t))
  : option Model.t :=
  match entries with
  | [] => None
  | (key, m) :: rest => if (key =? id)%string then Some m else lookup id rest
  end.

End models.

(* --------------------------------------------------------------------- *)
(* newOllamaClient and its options                                       *)
(* --------------------------------------------------------------------- *)

(** [OllamaOption], a function on a pointer to [ollamaOptions]: the
    update an option makes to the options it is handed. *)
Definition OllamaOption : Type := ollamaOptions.t -> ollamaOptions.t.

Definition WithOllamaBaseURL (baseURL : string) : OllamaOption :=
  fun options => ollamaOptions.mk baseURL (ollamaOptions.model options).

Definition WithOllamaModel (model : string) : OllamaOption :=
  fun options => ollamaOptions.mk (ollamaOptions.baseURL options) model.

(** [newOllamaClient(opts)].  The fields [opts.model] and
    [opts.ollamaOptions] are passed beside the part of [opts] the client
    keeps reading; the HTTP client with its five minute timeout is not part
    of [ollamaClient.t]. *)
Definition newOllamaClient (opts : providerClientOptions.t)
    (model : models.Model.t) (ollamaOptions_ : list OllamaOption)
  : ollamaClient.t :=
  let ollamaOpts := ollamaOptions.mk "http://localhost:11434" "" in
  let ollamaOpts :=
    if ((models.Model.ID model =? "ollama.custom")%string
        && nonempty (models.Model.APIModel model))%bool
    then ollamaOptions.mk (ollamaOptions.baseURL ollamaOpts)
           (models.Model.APIModel model)
    else ollamaOptions.mk (ollamaOptions.baseURL ollamaOpts)
           (models.Model.APIModel model) in
  let ollamaOpts :=
    fold_left (fun (acc : ollamaOptions.t) (o : OllamaOption) => o acc)
      ollamaOptions_ ollamaOpts in
  ollamaClient.mk opts ollamaOpts.

(* --------------------------------------------------------------------- *)
(* Further scripted backends and views                                   *)
(* --------------------------------------------------------------------- *)

(** The steps of a call that can fail before an answer is there. *)
Inductive Step : Type :=
| StepMarshal
| StepCreate
| StepSend.

(** A backend whose call fails at [step] with [err]. *)
Definition failingAt (step : Step) (err : error) : Env := {|
  Context := unit;
  BaseTool := unit;
  json_Marshal :=
    fun req => match step with StepMarshal => inr err | _ => json.Marshal req end;
  json_Unmarshal := json.Unmarshal;
  http_NewRequestWithContext :=
    fun _ method url body =>
      match step with
      | StepCreate => inr err
      | _ => inl (Request.mk method url [] body)
      end;
  client_Do :=
    fun _ =>
      match step with
      | StepSend => inr err
      | _ => inl (Response.mk 200 (Body.mk [] io_EOF))
      end
|}.

(** A backend that answers with [status] and [data], and whose body then
    fails with [fin]. *)
Definition breaking (status : Z) (data : list byte) (fin : error) : Env :=
  scripted (inl (Response.mk status (Body.mk data fin))).

(** A first record, and a second one that lacks its newline. *)
Definition firstRecord : list byte :=
  wire "{'message':{'content':'1'},'done':false}" ++ [LFb].

Definition unterminatedRecord : list byte :=
  wire "{'message':{'content':'2'},'done':true}".

(** The fragment [firstRecord] decodes to. *)
Definition firstFragment : ollamaResponse.t :=
  ollamaResponse.mk "" "" (ollamaMessage.mk "" "1") false ""
    (ollamaUsage.mk 0 0 0).

(** A done fragment that also carries an increment, followed by records
    that are never read. *)
Definition overrunData : list byte :=
  firstRecord
    ++ wire "{'message':{'content':'2'},'done':true,'usage':{'prompt_tokens':5,'completion_tokens':2}}"
    ++ [LFb] ++ wire "not json" ++ [LFb]
    ++ wire "{'error':'late'}" ++ [LFb].

Definition overrunFinal : ollamaResponse.t :=
  ollamaResponse.mk "" "" (ollamaMessage.mk "" "2") true ""
    (ollamaUsage.mk 5 2 0).

(** An error fragment that also carries content and the done flag. *)
Definition loudErrorData : list byte :=
  firstRecord
    ++ wire "{'message':{'content':'2'},'done':true,'error':'out of memory'}"
    ++ [LFb].

Definition loudError : ollamaResponse.t :=
  ollamaResponse.mk "" "" (ollamaMessage.mk "" "2") true "out of memory"
    (ollamaUsage.mk 0 0 0).

(** A record that is not JSON after a first increment. *)
Definition malformedData : list byte :=
  firstRecord ++ wire "{'message':" ++ [LFb] ++ firstRecord.

(** The client with its system message removed. *)
Definition withoutSystemMessage (o : ollamaClient.t) : ollamaClient.t :=
  ollamaClient.mk (providerClientOptions.mk "") (ollamaClient.options o).

(** The number of Wire Turns a history turn is translated to. *)
Definition turnCount (msg : Message.t) : nat :=
  match Message.Role msg with
  | User => 1
  | Assistant =>
      (if nonempty (Message.Content msg) then 1 else 0)
      + (match Message.ToolCalls msg with [] => 0 | _ :: _ => 1 end)
  | Tool => List.length (Message.ToolResults msg)
  | _ => 0
  end.

(** The roles a Wire Turn of the translator can have. *)
Definition wireRole (role : string) : bool :=
  ((role =? "system") || (role =? "user") || (role =? "assistant"))%string.

(** The labels the two modes put in front of the cause of a failure. *)
Definition sendLabels : list string :=
  ["failed to marshal request: "; "failed to create request: ";
   "failed to send request: "; "failed to read response: ";
   "ollama API error: "; "failed to unmarshal response: "].

Definition streamLabels : list string :=
  ["failed to marshal request: "; "failed to create request: ";
   "failed to send request: "; "ollama API error: ";
   "error reading stream: "; "failed to unmarshal response: "].

(** An error known by a message that starts with one of [labels]. *)
Definition labelled (labels : list string) (err : error) : Prop :=
  exists label detail,
    In label labels /\ err = errorString (label ++ detail).

(* ===================================================================== *)
(* Properties of the translator                                          *)
(* ===================================================================== *)

Lemma append_assoc (a b c : string) : ((a ++ b) ++ c = a ++ (b ++ c))%string.
Proof.
  induction a as [|ch a IH]; simpl; [reflexivity | now rewrite IH].
Qed.

Lemma append_nil_r (a : string) : (a ++ "")%string = a.
Proof.
  induction a as [|ch a IH]; simpl; [reflexivity | now rewrite IH].
Qed.

Lemma nonempty_true (s : string) : nonempty s = true <-> s <> "".
Proof.
  unfold nonempty. rewrite negb_true_iff. apply String.eqb_neq.
Qed.

Lemma nonempty_false (s : string) : nonempty s = false <-> s = "".
Proof.
  unfold nonempty. rewrite negb_false_iff. apply String.eqb_eq.
Qed.

(** The inner loop builds the header followed by one line per call. *)
Lemma toolCallsText_concat (calls : list ToolCall.t) :
  toolCallsText calls
  = (("I need to use the following tools:" ++ nl)
       ++ String.concat "" (map toolCallLine calls))%string.
Proof.
  unfold toolCallsText.
  generalize ("I need to use the following tools:" ++ nl)%string as header.
  induction calls as [|call calls IH]; intros header; simpl.
  - now rewrite append_nil_r.
  - rewrite IH, append_assoc. f_equal.
    destruct calls as [|call' calls]; simpl; [now rewrite append_nil_r | reflexivity].
Qed.

Lemma toolResults_fold (results : list ToolResult.t) (acc : list ollamaMessage.t) :
  fold_left
    (fun acc result => acc ++ [ollamaMessage.mk "user" (toolResultText result)])
    results acc
  = acc ++ map (fun result => ollamaMessage.mk "user" (toolResultText result)) results.
Proof.
  revert acc. induction results as [|r results IH]; intros acc; simpl.
  - now rewrite app_nil_r.
  - rewrite IH, <- app_assoc. reflexivity.
Qed.

(** An iteration only appends to the slice. *)
Lemma convertMessage_app (acc : list ollamaMessage.t) (msg : Message.t) :
  convertMessage acc msg = acc ++ turnsOf msg.
Proof.
  unfold turnsOf, convertMessage.
  destruct (Message.Role msg); rewrite ?app_nil_r; try reflexivity.
  - destruct (nonempty (Message.Content msg)),
      (0 <? List.length (Message.ToolCalls msg))%nat;
      simpl; rewrite ?app_nil_r, <- ?app_assoc; reflexivity.
  - rewrite !toolResults_fold. reflexivity.
Qed.

Lemma convertMessages_fold (messages : list Message.t) (acc : list ollamaMessage.t) :
  fold_left convertMessage messages acc = acc ++ flat_map turnsOf messages.
Proof.
  revert acc. induction messages as [|msg messages IH]; intros acc; simpl.
  - now rewrite app_nil_r.
  - rewrite IH, convertMessage_app, <- app_assoc. reflexivity.
Qed.

(** The translator's output: the system turn, when one is configured,
    then the turns of the history in order. *)
Lemma convertMessages_shape (o : ollamaClient.t) (messages : list Message.t) :
  convertMessages o messages
  = (if nonempty (providerClientOptions.systemMessage (ollamaClient.providerOptions o))
     then [ollamaMessage.mk "system"
             (providerClientOptions.systemMessage (ollamaClient.providerOptions o))]
     else [])
    ++ flat_map turnsOf messages.
Proof.
  unfold convertMessages. rewrite convertMessages_fold.
  destruct (nonempty _); reflexivity.
Qed.

(** No turn of the history is translated to a system turn. *)
Lemma turnsOf_not_system (msg : Message.t) :
  Forall (fun t => isSystemTurn t = false) (turnsOf msg).
Proof.
  unfold turnsOf, convertMessage.
  destruct (Message.Role msg); simpl; auto.
  - destruct (nonempty (Message.Content msg)),
      (0 <? List.length (Message.ToolCalls msg))%nat; simpl; auto.
  - rewrite toolResults_fold. simpl.
    apply Forall_forall. intros t Ht. apply in_map_iff in Ht.
    destruct Ht as [r [<- _]]. reflexivity.
Qed.

Lemma history_not_system (messages : list Message.t) :
  Forall (fun t => isSystemTurn t = false) (flat_map turnsOf messages).
Proof.
  induction messages as [|msg messages IH]; simpl.
  - constructor.
  - apply Forall_app. split; [apply turnsOf_not_system | exact IH].
Qed.

(** C7: when the configured system message is not empty, the first Wire
    Turn of [convertMessages] is the system turn carrying it, whatever the
    history holds, and the turns of the history follow; when it is empty,
    the output is the turns of the history alone, none of them a system
    turn. *)
Theorem convertMessages_system_first (o : ollamaClient.t)
    (messages : list Message.t) :
  let systemMessage :=
    providerClientOptions.systemMessage (ollamaClient.providerOptions o) in
  (systemMessage <> "" ->
     hd_error (convertMessages o messages)
     = Some (ollamaMessage.mk "system" systemMessage)
     /\ tl (convertMessages o messages) = flat_map turnsOf messages)
  /\ (systemMessage = "" ->
        convertMessages o messages = flat_map turnsOf messages
        /\ Forall (fun t => ollamaMessage.Role t <> "system")
             (convertMessages o messages)).
Proof.
  intros systemMessage. subst systemMessage.
  rewrite convertMessages_shape. split; intros H.
  - apply nonempty_true in H. rewrite H. simpl. split; reflexivity.
  - apply nonempty_false in H. rewrite H. simpl. split; [reflexivity|].
    eapply Forall_impl; [|apply history_not_system].
    intros t Ht. unfold isSystemTurn in Ht. now apply String.eqb_neq.
Qed.

Lemma convertMessages_system_first_witness :
  (hd_error (convertMessages (client "be brief")
               [Message.mk System "ignored" [] []; userTurn "hi"])
   = Some (ollamaMessage.mk "system" "be brief")
   /\ tl (convertMessages (client "be brief")
            [Message.mk System "ignored" [] []; userTurn "hi"])
      = [ollamaMessage.mk "user" "hi"])
  /\ convertMessages (client "")
       [Message.mk System "ignored" [] []; userTurn "hi"]
     = [ollamaMessage.mk "user" "hi"].
Proof.
  split.
  - apply (proj1 (convertMessages_system_first (client "be brief")
                    [Message.mk System "ignored" [] []; userTurn "hi"])).
    simpl. discriminate.
  - apply (proj2 (convertMessages_system_first (client "")
                    [Message.mk System "ignored" [] []; userTurn "hi"])).
    reflexivity.
Defined.

(** The turns around one history turn: the output for the turns before
    it, its own turns, then the turns of those after it. *)
Lemma convertMessages_around (o : ollamaClient.t) (before after : list Message.t)
    (msg : Message.t) :
  convertMessages o (before ++ msg :: after)
  = convertMessages o before ++ turnsOf msg ++ flat_map turnsOf after.
Proof.
  rewrite !convertMessages_shape, flat_map_app. simpl.
  rewrite <- app_assoc. reflexivity.
Qed.

(** C8: an assistant turn with empty text and at least one tool-call
    request contributes exactly one Wire Turn, in its place in the output:
    an assistant turn whose content is the header line followed by the
    name and the serialized input of every requested tool, in order. *)
Theorem convertMessages_tool_calls_only (o : ollamaClient.t)
    (before after : list Message.t) (msg : Message.t) :
  Message.Role msg = Assistant ->
  Message.Content msg = "" ->
  Message.ToolCalls msg <> [] ->
  let synthesized :=
    ollamaMessage.mk "assistant"
      (("I need to use the following tools:" ++ nl)
         ++ String.concat ""
              (map (fun call =>
                      "- Tool: " ++ ToolCall.Name call ++ nl
                        ++ "  Arguments: " ++ ToolCall.Input call ++ nl)%string
                 (Message.ToolCalls msg))) in
  turnsOf msg = [synthesized]
  /\ convertMessages o (before ++ msg :: after)
     = convertMessages o before ++ [synthesized] ++ flat_map turnsOf after.
Proof.
  intros Hrole Hcontent Hcalls synthesized.
  assert (Hturns : turnsOf msg = [synthesized]).
  { unfold turnsOf, convertMessage. rewrite Hrole, Hcontent. simpl.
    rewrite toolCallsText_concat. subst synthesized.
    destruct (Message.ToolCalls msg) as [|call calls]; [contradiction|].
    reflexivity. }
  split; [exact Hturns|].
  rewrite convertMessages_around, Hturns. reflexivity.
Qed.

Lemma convertMessages_tool_calls_only_witness :
  convertMessages (client "be brief")
    ([userTurn "list the files"]
       ++ Message.mk Assistant ""
            [ToolCall.mk "call_1" "ls" "{}"; ToolCall.mk "call_2" "pwd" "{}"] []
       :: [Message.mk Tool "" [] [ToolResult.mk "call_1" "a.go"]])
  = [ollamaMessage.mk "system" "be brief";
     ollamaMessage.mk "user" "list the files";
     ollamaMessage.mk "assistant"
       ("I need to use the following tools:" ++ nl
          ++ "- Tool: ls" ++ nl ++ "  Arguments: {}" ++ nl
          ++ "- Tool: pwd" ++ nl ++ "  Arguments: {}" ++ nl);
     ollamaMessage.mk "user" "Tool result for call_1: a.go"].
Proof.
  apply (proj2 (convertMessages_tool_calls_only (client "be brief")
                  [userTurn "list the files"]
                  [Message.mk Tool "" [] [ToolResult.mk "call_1" "a.go"]]
                  (Message.mk Assistant ""
                     [ToolCall.mk "call_1" "ls" "{}"; ToolCall.mk "call_2" "pwd" "{}"] [])
                  eq_refl eq_refl ltac:(discriminate))).
Defined.

Lemma filter_none {A : Type} (f : A -> bool) (l : list A) :
  Forall (fun x => f x = false) l -> filter f l = [].
Proof.
  induction 1 as [|x l Hx _ IH]; simpl; [reflexivity | now rewrite Hx].
Qed.

(** C10: a history turn whose role is system, or any role other than
    user, assistant and tool, contributes no Wire Turn: the output is the
    output for the history without it.  The system turns of the output are
    therefore the configured system message alone, when there is one. *)
Theorem convertMessages_drops_unrecognized (o : ollamaClient.t)
    (messages : list Message.t) :
  (forall before msg after,
      messages = before ++ msg :: after ->
      recognized (Message.Role msg) = false ->
      turnsOf msg = []
      /\ convertMessages o messages = convertMessages o (before ++ after))
  /\ filter isSystemTurn (convertMessages o messages)
     = (if nonempty (providerClientOptions.systemMessage
                       (ollamaClient.providerOptions o))
        then [ollamaMessage.mk "system"
                (providerClientOptions.systemMessage
                   (ollamaClient.providerOptions o))]
        else []).
Proof.
  split.
  - intros before msg after -> Hrole.
    assert (Hturns : turnsOf msg = []).
    { unfold turnsOf, convertMessage.
      destruct (Message.Role msg); simpl in Hrole; try discriminate; reflexivity. }
    split; [exact Hturns|].
    rewrite convertMessages_around, Hturns.
    rewrite !convertMessages_shape, flat_map_app, <- app_assoc. reflexivity.
  - rewrite convertMessages_shape, filter_app.
    rewrite (filter_none _ _ (history_not_system messages)), app_nil_r.
    destruct (nonempty _); reflexivity.
Qed.

Lemma convertMessages_drops_unrecognized_witness :
  convertMessages (client "be brief")
    [userTurn "hi"; Message.mk System "you are a pirate" [] [];
     Message.mk (RoleOther "developer") "x" [] []; userTurn "bye"]
  = convertMessages (client "be brief")
      ([userTurn "hi"]
         ++ [Message.mk (RoleOther "developer") "x" [] []; userTurn "bye"]).
Proof.
  apply (proj1 (convertMessages_drops_unrecognized (client "be brief")
                  [userTurn "hi"; Message.mk System "you are a pirate" [] [];
                   Message.mk (RoleOther "developer") "x" [] []; userTurn "bye"])
           [userTurn "hi"] (Message.mk System "you are a pirate" [] [])
           [Message.mk (RoleOther "developer") "x" [] []; userTurn "bye"]
           eq_refl eq_refl).
Defined.

(* ===================================================================== *)
(* Properties of the reader                                              *)
(* ===================================================================== *)

Lemma splitDelim_some (data line rest : list byte) :
  splitDelim LFb data = Some (line, rest) ->
  data = line ++ rest
  /\ line <> []
  /\ forall pending,
       recordsFrom pending data = (pending ++ line) :: recordsFrom [] rest.
Proof.
  revert line rest.
  induction data as [|b data IH]; intros line rest H; simpl in H.
  - discriminate.
  - destruct (Byte.eqb b LFb) eqn:Hb.
    + injection H as <- <-. repeat split; [discriminate|].
      intros pending. simpl. now rewrite Hb.
    + destruct (splitDelim LFb data) as [[l r]|]; [|discriminate].
      injection H as <- <-.
      destruct (IH _ _ eq_refl) as [-> [_ Hrec]].
      repeat split; [discriminate|].
      intros pending. simpl. rewrite Hb, Hrec, <- app_assoc. reflexivity.
Qed.

Lemma splitDelim_none (data : list byte) :
  splitDelim LFb data = None ->
  forall pending, recordsFrom pending data = [].
Proof.
  induction data as [|b data IH]; intros H pending; simpl in *.
  - reflexivity.
  - destruct (Byte.eqb b LFb); [discriminate|].
    destruct (splitDelim LFb data) as [[l r]|]; [discriminate|].
    now apply IH.
Qed.

(** A read that finds its delimiter returns the first record, which is
    never empty, and leaves the reader on the records after it. *)
Lemma ReadBytes_record (reader reader' : Body.t) (line : list byte) :
  ReadBytes reader LFb = (line, None, reader') ->
  line <> []
  /\ records (Body.data reader) = line :: records (Body.data reader')
  /\ Body.fin reader' = Body.fin reader.
Proof.
  unfold ReadBytes.
  destruct (splitDelim LFb (Body.data reader)) as [[l r]|] eqn:Hs;
    [|discriminate].
  intros H. injection H as <- <-.
  destruct (splitDelim_some _ _ _ Hs) as [_ [Hne Hrec]].
  repeat split; [exact Hne|]. apply (Hrec []).
Qed.

(** A read that fails has run out of records and reports the error the
    body ends with. *)
Lemma ReadBytes_end (reader reader' : Body.t) (line : list byte) (err : error) :
  ReadBytes reader LFb = (line, Some err, reader') ->
  records (Body.data reader) = [] /\ err = Body.fin reader.
Proof.
  unfold ReadBytes.
  destruct (splitDelim LFb (Body.data reader)) as [[l r]|] eqn:Hs;
    [discriminate|].
  intros H. injection H as _ <- _.
  split; [|reflexivity]. apply (splitDelim_none _ Hs []).
Qed.

(** The guard [len(line) == 0] of the read loop never holds for a line
    that [ReadBytes] returned without an error: the line ends with its
    delimiter. *)
Lemma ReadBytes_line_nonempty (reader reader' : Body.t) (line : list byte) :
  ReadBytes reader LFb = (line, None, reader') ->
  (List.length line =? 0)%nat = false.
Proof.
  intros H. destruct (ReadBytes_record _ _ _ H) as [Hne _].
  destruct line; [contradiction | reflexivity].
Qed.

(* ===================================================================== *)
(* Properties of the read loop                                           *)
(* ===================================================================== *)

Section ReadLoop.

Context {E : Env}.

(** One iteration of the loop, as the source writes it. *)
Lemma stream_loop_step (reader : Body.t) (fullContent : string) :
  stream_loop reader fullContent
  = match ReadBytes reader LFb with
    | (_, Some io_EOF, _) => [eofEvent fullContent]
    | (_, Some err, _) => [errorEvent (Errorf_w "error reading stream: " err)]
    | (line, None, reader') =>
        if (List.length line =? 0)%nat then stream_loop reader' fullContent
        else
          match json_Unmarshal line with
          | inr err => [errorEvent (Errorf_w "failed to unmarshal response: " err)]
          | inl ollamaResp =>
              if nonempty (ollamaResponse.Error ollamaResp)
              then [errorEvent (Errorf_s "ollama API error: "
                                  (ollamaResponse.Error ollamaResp))]
              else if ollamaResponse.Done ollamaResp
              then fst (sendDelta fullContent ollamaResp)
                     ++ [doneEvent (snd (sendDelta fullContent ollamaResp)) ollamaResp]
              else fst (sendDelta fullContent ollamaResp)
                     ++ stream_loop reader' (snd (sendDelta fullContent ollamaResp))
          end
    end.
Proof.
  funelim (stream_loop reader fullContent);
    clear Heqcall;
    repeat match goal with
           | H : ?x = _ |- context [?x] => rewrite H
           end;
    reflexivity.
Qed.

Lemma sendDelta_increments (fullContent : string) (ollamaResp : ollamaResponse.t) :
  sendDelta fullContent ollamaResp
  = (map deltaEvent (increments [ollamaResp]),
     (fullContent ++ String.concat "" (increments [ollamaResp]))%string).
Proof.
  unfold sendDelta, increments, contentOf. simpl.
  destruct (nonempty _); simpl; now rewrite ?append_nil_r.
Qed.

Lemma increments_cons (ollamaResp : ollamaResponse.t)
    (fragments : list ollamaResponse.t) :
  increments (ollamaResp :: fragments)
  = increments [ollamaResp] ++ increments fragments.
Proof.
  unfold increments. simpl. destruct (nonempty _); reflexivity.
Qed.

Lemma increments_app (a b : list ollamaResponse.t) :
  increments (a ++ b) = increments a ++ increments b.
Proof.
  unfold increments. now rewrite map_app, filter_app.
Qed.

Lemma decoded_record (reader reader' : Body.t) (line : list byte) :
  ReadBytes reader LFb = (line, None, reader') ->
  decoded (Body.data reader)
  = match json_Unmarshal line with
    | inl ollamaResp => [ollamaResp]
    | inr _ => []
    end ++ decoded (Body.data reader').
Proof.
  intros H. destruct (ReadBytes_record _ _ _ H) as [_ [Hrec _]].
  unfold decoded. rewrite Hrec. reflexivity.
Qed.

Lemma delivered_record (reader reader' : Body.t) (line : list byte) :
  ReadBytes reader LFb = (line, None, reader') ->
  delivered (Body.data reader)
  = match json_Unmarshal line with
    | inl ollamaResp => increments [ollamaResp]
    | inr _ => []
    end ++ delivered (Body.data reader').
Proof.
  intros H. unfold delivered.
  rewrite (decoded_record _ _ _ H), increments_app.
  destruct (json_Unmarshal line) as [r|]; reflexivity.
Qed.

Lemma concat_app (a b : list string) :
  String.concat "" (a ++ b)
  = (String.concat "" a ++ String.concat "" b)%string.
Proof.
  induction a as [|x a IH]; simpl; [reflexivity|].
  destruct a as [|y a]; simpl in *.
  - destruct b; simpl; now rewrite ?append_nil_r.
  - rewrite IH, append_assoc. reflexivity.
Qed.

(** What the loop sends from any state: content-delta events, then one
    terminal event.  The payloads are non-empty and are the first
    increments the rest of the body delivers; a complete event carries
    [fullContent] followed by all the payloads, and reports the end of
    turn. *)
Lemma stream_loop_shape (reader : Body.t) (fullContent : string) :
  exists payloads terminal,
    stream_loop reader fullContent = map deltaEvent payloads ++ [terminal]
    /\ ((exists err, terminal = errorEvent err)
        \/ (exists usage,
              terminal
              = completeEvent
                  (ProviderResponse.mk
                     (fullContent ++ String.concat "" payloads)
                     usage FinishReasonEndTurn)))
    /\ (exists later, delivered (Body.data reader) = payloads ++ later).
Proof.
  funelim (stream_loop reader fullContent); clear Heqcall;
    try match goal with
        | Hread : ReadBytes _ _ = (_, None, _) |- _ =>
            pose proof (delivered_record _ _ _ Hread) as Hdel;
            pose proof (ReadBytes_line_nonempty _ _ _ Hread) as Hlen
        end.
  - exists [], (eofEvent fullContent). simpl. rewrite append_nil_r.
    split; [reflexivity|]. split; [right; eexists; reflexivity|].
    eexists; reflexivity.
  - exists [], (errorEvent (Errorf_w "error reading stream: " (errorString msg))).
    split; [reflexivity|]. split; [left; eexists; reflexivity|].
    eexists; reflexivity.
  - congruence.
  - eexists [], _. split; [reflexivity|]. split; [left; eexists; reflexivity|].
    eexists; reflexivity.
  - eexists [], _. split; [reflexivity|]. split; [left; eexists; reflexivity|].
    eexists; reflexivity.
  - rewrite sendDelta_increments. simpl fst. simpl snd.
    exists (increments [ollamaResp]), (doneEvent (fullContent ++ String.concat "" (increments [ollamaResp])) ollamaResp).
    split; [reflexivity|]. split; [right; eexists; reflexivity|].
    rewrite Hdel.
    match goal with H : json_Unmarshal _ = _ |- _ => rewrite H end.
    eexists; reflexivity.
  - rewrite sendDelta_increments in *. simpl fst in *. simpl snd in *.
    match goal with
    | IH : exists _ _, _ |- _ =>
        destruct IH as (payloads & terminal & Hev & Hterm & later & Hlater)
    end.
    exists (increments [ollamaResp] ++ payloads), terminal.
    split; [rewrite Hev, map_app, app_assoc; reflexivity|].
    split.
    + destruct Hterm as [Herr | [usage Hc]]; [left; exact Herr|].
      right. exists usage. rewrite Hc, concat_app, append_assoc. reflexivity.
    + rewrite Hdel, Hlater.
      match goal with H : json_Unmarshal _ = _ |- _ => rewrite H end.
      exists later. now rewrite app_assoc.
Qed.

(** The first record of a body is what the next read returns. *)
Lemma records_cons (data : list byte) (fin : error) (line : list byte)
    (recs : list (list byte)) :
  records data = line :: recs ->
  exists rest,
    ReadBytes (Body.mk data fin) LFb = (line, None, Body.mk rest fin)
    /\ records rest = recs.
Proof.
  intros H. unfold ReadBytes. simpl.
  destruct (splitDelim LFb data) as [[l r]|] eqn:Hs.
  - destruct (splitDelim_some _ _ _ Hs) as [_ [_ Hrec]].
    unfold records in H. rewrite (Hrec []) in H. simpl in H.
    injection H as -> <-. exists r. split; reflexivity.
  - unfold records in H. rewrite (splitDelim_none _ Hs []) in H. discriminate.
Qed.

(** A body with no record left makes the next read fail with the error
    the body ends with, whatever data is left after the last delimiter. *)
Lemma records_nil (data : list byte) (fin : error) :
  records data = [] ->
  ReadBytes (Body.mk data fin) LFb = (data, Some fin, Body.mk [] fin).
Proof.
  intros H. unfold ReadBytes. simpl.
  destruct (splitDelim LFb data) as [[l r]|] eqn:Hs; [|reflexivity].
  destruct (splitDelim_some _ _ _ Hs) as [_ [_ Hrec]].
  unfold records in H. rewrite (Hrec []) in H. discriminate.
Qed.

(** Empty contents add nothing to the accumulated text. *)
Lemma concat_increments (fragments : list ollamaResponse.t) :
  String.concat "" (increments fragments)
  = String.concat "" (map contentOf fragments).
Proof.
  induction fragments as [|f fragments IH]; [reflexivity|].
  rewrite increments_cons, concat_app, IH.
  change (map contentOf (f :: fragments))
    with ([contentOf f] ++ map contentOf fragments).
  rewrite concat_app. f_equal.
  unfold increments. simpl.
  destruct (nonempty (contentOf f)) eqn:Hne; [reflexivity|].
  apply nonempty_false in Hne. now rewrite Hne.
Qed.

(** The loop over fragments that neither fail nor end the call: one
    content-delta event per non-empty content, the text accumulated, and
    the loop goes on with the records that follow. *)
Lemma stream_loop_continues (fragments : list ollamaResponse.t) :
  forall (data : list byte) (fin : error) (fullContent : string)
         (more : list (result ollamaResponse.t)),
    map json_Unmarshal (records data) = map inl fragments ++ more ->
    Forall continues fragments ->
    exists data',
      map json_Unmarshal (records data') = more
      /\ stream_loop (Body.mk data fin) fullContent
         = map deltaEvent (increments fragments)
             ++ stream_loop (Body.mk data' fin)
                  (fullContent ++ String.concat "" (increments fragments)).
Proof.
  induction fragments as [|f fragments IH];
    intros data fin fullContent more Hdec Hcont.
  - exists data. simpl. rewrite append_nil_r. split; [exact Hdec | reflexivity].
  - destruct (records data) as [|line recs] eqn:Hrec; [discriminate|].
    simpl in Hdec. injection Hdec as Hline Hrecs.
    destruct (records_cons data fin line recs Hrec) as [rest [Hread <-]].
    inversion Hcont as [|? ? [Herr Hdone] Hcont']; subst.
    destruct (IH rest fin
                (fullContent ++ String.concat "" (increments [f]))%string
                more Hrecs Hcont') as [data' [Hmore Hrun]].
    exists data'. split; [exact Hmore|].
    rewrite stream_loop_step, Hread,
      (ReadBytes_line_nonempty _ _ _ Hread), Hline.
    apply nonempty_false in Herr. rewrite Herr, Hdone.
    rewrite sendDelta_increments. simpl fst. simpl snd.
    rewrite Hrun, (increments_cons f fragments), map_app, concat_app,
      append_assoc, app_assoc.
    reflexivity.
Qed.

(** End of stream after fragments that neither fail nor end the call. *)
Lemma stream_loop_eof (fragments : list ollamaResponse.t) (data : list byte)
    (fullContent : string) :
  decodesTo data fragments ->
  Forall continues fragments ->
  stream_loop (Body.mk data io_EOF) fullContent
  = map deltaEvent (increments fragments)
      ++ [eofEvent (fullContent ++ String.concat "" (map contentOf fragments))].
Proof.
  intros Hdec Hcont. unfold decodesTo in Hdec.
  rewrite <- (app_nil_r (map inl fragments)) in Hdec.
  destruct (stream_loop_continues fragments data io_EOF fullContent [] Hdec Hcont)
    as [data' [Hmore Hrun]].
  rewrite Hrun. f_equal.
  apply map_eq_nil in Hmore.
  rewrite stream_loop_step, (records_nil data' io_EOF Hmore), concat_increments.
  reflexivity.
Qed.

(** A final fragment with [Done] set, after fragments that neither fail
    nor end the call. *)
Lemma stream_loop_done (fragments : list ollamaResponse.t)
    (final : ollamaResponse.t) (data : list byte) (fin : error)
    (fullContent : string) :
  decodesTo data (fragments ++ [final]) ->
  Forall continues fragments ->
  ollamaResponse.Error final = "" ->
  ollamaResponse.Done final = true ->
  stream_loop (Body.mk data fin) fullContent
  = map deltaEvent (increments (fragments ++ [final]))
      ++ [doneEvent
            (fullContent ++ String.concat "" (map contentOf (fragments ++ [final])))
            final].
Proof.
  intros Hdec Hcont Herr Hdone. unfold decodesTo in Hdec.
  rewrite map_app in Hdec.
  destruct (stream_loop_continues fragments data fin fullContent _ Hdec Hcont)
    as [data' [Hmore Hrun]].
  rewrite Hrun.
  destruct (records data') as [|line recs] eqn:Hrec; [discriminate|].
  simpl in Hmore. injection Hmore as Hline _.
  destruct (records_cons data' fin line recs Hrec) as [rest [Hread _]].
  rewrite stream_loop_step, Hread, (ReadBytes_line_nonempty _ _ _ Hread), Hline.
  apply nonempty_false in Herr. rewrite Herr, Hdone.
  rewrite sendDelta_increments. simpl fst. simpl snd.
  rewrite increments_app, map_app, <- app_assoc.
  rewrite <- concat_increments, increments_app, concat_app, append_assoc.
  reflexivity.
Qed.

(** Content-delta events hold no response. *)
Lemma completesWith_after_deltas (payloads : list string)
    (events : list ProviderEvent.t) (response : ProviderResponse.t) :
  completesWith (map deltaEvent payloads ++ events) response ->
  completesWith events response.
Proof.
  intros (ev & Hin & Htype & Hresp).
  apply in_app_or in Hin. destruct Hin as [Hin | Hin].
  - apply in_map_iff in Hin. destruct Hin as (p & <- & _). discriminate.
  - exists ev. repeat split; assumption.
Qed.

Lemma completesWith_single (ev : ProviderEvent.t) (response : ProviderResponse.t) :
  completesWith [ev] response ->
  ProviderEvent.Response ev = Some response.
Proof.
  intros (ev' & [<- | []] & _ & Hresp). exact Hresp.
Qed.

(** The usage a complete event reports: the counters of the first done
    fragment the body delivers, and zero when it delivers none. *)
Lemma stream_loop_usage (reader : Body.t) (fullContent : string)
    (response : ProviderResponse.t) :
  completesWith (stream_loop reader fullContent) response ->
  ProviderResponse.Usage response
  = match firstDone (Body.data reader) with
    | None => TokenUsage.mk 0 0
    | Some final =>
        TokenUsage.mk
          (ollamaUsage.PromptTokens (ollamaResponse.Usage final))
          (ollamaUsage.CompletionTokens (ollamaResponse.Usage final))
    end.
Proof.
  funelim (stream_loop reader fullContent); clear Heqcall; intros Hc;
    try match goal with
        | Hread : ReadBytes _ _ = (_, None, _) |- _ =>
            pose proof (decoded_record _ _ _ Hread) as Hdec;
            pose proof (ReadBytes_line_nonempty _ _ _ Hread) as Hlen
        end;
    try (apply completesWith_single in Hc; discriminate).
  - apply completesWith_single in Hc. injection Hc as <-.
    match goal with
    | Hread : ReadBytes _ _ = (_, Some _, _) |- _ =>
        destruct (ReadBytes_end _ _ _ _ Hread) as [Hrec _]
    end.
    unfold firstDone, decoded. rewrite Hrec. reflexivity.
  - congruence.
  - rewrite sendDelta_increments in Hc. simpl fst in Hc. simpl snd in Hc.
    apply completesWith_after_deltas, completesWith_single in Hc.
    injection Hc as <-.
    unfold firstDone. rewrite Hdec.
    repeat match goal with H : _ = _ |- _ => rewrite H end.
    simpl.
    repeat match goal with H : _ = _ |- _ => rewrite H end.
    reflexivity.
  - rewrite sendDelta_increments in *. simpl fst in *. simpl snd in *.
    apply completesWith_after_deltas in Hc.
    match goal with
    | IH : forall _, completesWith _ _ -> _ |- _ => rewrite (IH _ Hc)
    end.
    unfold firstDone. rewrite Hdec.
    repeat match goal with H : json_Unmarshal _ = _ |- _ => rewrite H end.
    simpl.
    repeat match goal with H : ollamaResponse.Done _ = _ |- _ => rewrite H end.
    reflexivity.
Qed.

End ReadLoop.

(* ===================================================================== *)
(* Properties of traces                                                  *)
(* ===================================================================== *)

Lemma filter_terminal_deltas (payloads : list string) :
  filter isTerminal (map deltaEvent payloads) = [].
Proof.
  induction payloads as [|p payloads IH]; simpl; [reflexivity | exact IH].
Qed.

Lemma deltaPayloads_deltas (payloads : list string) :
  deltaPayloads (map deltaEvent payloads) = payloads.
Proof.
  induction payloads as [|p payloads IH]; simpl; [reflexivity | now rewrite IH].
Qed.

(** In a trace of content-delta events closed by a terminal event, nothing
    follows a terminal event. *)
Lemma terminal_is_last (payloads : list string) (terminal : ProviderEvent.t) :
  forall before ev after,
    map deltaEvent payloads ++ [terminal] = before ++ ev :: after ->
    isTerminal ev = true ->
    after = [] /\ ev = terminal /\ before = map deltaEvent payloads.
Proof.
  induction payloads as [|p payloads IH]; intros before ev after Heq Hterm.
  - destruct before as [|b before]; simpl in Heq.
    + injection Heq as <- <-. repeat split.
    + injection Heq as _ Heq. destruct before; discriminate.
  - destruct before as [|b before]; simpl in Heq.
    + injection Heq as <- _. discriminate.
    + injection Heq as <- Heq.
      destruct (IH _ _ _ Heq Hterm) as [-> [-> ->]]. repeat split.
Qed.

Lemma deltaPayloads_trace (payloads : list string) (terminal : ProviderEvent.t) :
  isTerminal terminal = true ->
  deltaPayloads (map deltaEvent payloads ++ [terminal]) = payloads.
Proof.
  intros Hterm. unfold deltaPayloads. rewrite flat_map_app.
  fold (deltaPayloads (map deltaEvent payloads)).
  rewrite deltaPayloads_deltas. simpl.
  unfold isTerminal in Hterm.
  destruct (ProviderEvent.Type_ terminal); [discriminate| |];
    now rewrite app_nil_r.
Qed.

(* ===================================================================== *)
(* Properties of send and stream                                         *)
(* ===================================================================== *)

Section Calls.

Context {E : Env}.

Variables (o : ollamaClient.t) (ctx : Context) (messages : list Message.t)
  (tools : list BaseTool).

(** The answer to a call is unique. *)
Lemma answers_unique (streaming : bool) (resp resp' : Response.t) :
  answers o ctx messages streaming resp ->
  answers o ctx messages streaming resp' ->
  resp = resp'.
Proof.
  intros (j & r & Hj & Hr & Hd) (j' & r' & Hj' & Hr' & Hd').
  congruence.
Qed.

(** An answered streaming call: the status check, then the read loop. *)
Lemma stream_answered (resp : Response.t) :
  answers o ctx messages true resp ->
  stream o ctx messages tools
  = if negb (Response.StatusCode resp =? http_StatusOK)%Z
    then [errorEvent
            (Errorf_s "ollama API error: "
               (string_of_bytes (Body.data (Response.Body resp))))]
    else stream_loop (Response.Body resp) "".
Proof.
  intros (j & r & Hj & Hr & Hd).
  unfold stream, stream_goroutine. rewrite Hj, Hr, Hd. reflexivity.
Qed.

(** A call that is not answered sends one error event. *)
Lemma stream_cases :
  (exists resp, answers o ctx messages true resp)
  \/ (exists err, stream o ctx messages tools = [errorEvent err]).
Proof.
  unfold stream, stream_goroutine, answers.
  destruct (json_Marshal _) as [j|err] eqn:Hj; [|right; eexists; reflexivity].
  destruct (newChatRequest o ctx j) as [r|err] eqn:Hr;
    [|right; eexists; reflexivity].
  destruct (client_Do _) as [resp|err] eqn:Hd; [|right; eexists; reflexivity].
  left. exists resp, j, r. repeat split; assumption.
Qed.

(** An answered synchronous call: the body is read, then the status is
    checked, then the fragment is decoded. *)
Lemma send_answered (resp : Response.t) :
  answers o ctx messages false resp ->
  send o ctx messages tools
  = match io_ReadAll (Response.Body resp) with
    | (_, Some err) => inr (Errorf_w "failed to read response: " err)
    | (body, None) =>
        if negb (Response.StatusCode resp =? http_StatusOK)%Z
        then inr (Errorf_s "ollama API error: " (string_of_bytes body))
        else
          match json_Unmarshal body with
          | inr err => inr (Errorf_w "failed to unmarshal response: " err)
          | inl ollamaResp =>
              if nonempty (ollamaResponse.Error ollamaResp)
              then inr (Errorf_s "ollama API error: "
                          (ollamaResponse.Error ollamaResp))
              else
                inl (ProviderResponse.mk (contentOf ollamaResp)
                       (TokenUsage.mk
                          (ollamaUsage.PromptTokens (ollamaResponse.Usage ollamaResp))
                          (ollamaUsage.CompletionTokens (ollamaResponse.Usage ollamaResp)))
                       FinishReasonEndTurn)
          end
    end.
Proof.
  intros (j & r & Hj & Hr & Hd).
  unfold send. rewrite Hj. cbn [wrap bind]. rewrite Hr. cbn [wrap bind].
  rewrite Hd. cbn [wrap bind].
  destruct (io_ReadAll (Response.Body resp)) as [body [err|]]; [reflexivity|].
  destruct (negb _); [reflexivity|].
  destruct (json_Unmarshal body) as [ollamaResp|err]; reflexivity.
Qed.

(** Every trace of [stream]: content-delta events, then one terminal
    event; a complete event carries the concatenation of the payloads; the
    payloads are the first increments the answer delivers. *)
Lemma stream_shape :
  exists payloads terminal,
    stream o ctx messages tools = map deltaEvent payloads ++ [terminal]
    /\ ((exists err, terminal = errorEvent err)
        \/ (exists usage,
              terminal
              = completeEvent
                  (ProviderResponse.mk (String.concat "" payloads)
                     usage FinishReasonEndTurn)))
    /\ (forall resp,
          answers o ctx messages true resp ->
          exists later,
            delivered (Body.data (Response.Body resp)) = payloads ++ later).
Proof.
  destruct stream_cases as [[resp Hans] | [err Herr]].
  - rewrite (stream_answered resp Hans).
    destruct (negb _).
    + eexists [], _. split; [reflexivity|].
      split; [left; eexists; reflexivity|].
      intros resp' _. eexists; reflexivity.
    + destruct (stream_loop_shape (Response.Body resp) "")
        as (payloads & terminal & Hev & Hterm & Hlater).
      exists payloads, terminal. split; [exact Hev|]. split; [exact Hterm|].
      intros resp' Hans'. now rewrite <- (answers_unique _ _ _ Hans Hans').
  - rewrite Herr. eexists [], _. split; [reflexivity|].
    split; [left; eexists; reflexivity|].
    intros resp' _. eexists; reflexivity.
Qed.

End Calls.

(* ===================================================================== *)
(* Streaming mode: the content of the complete event                     *)
(* ===================================================================== *)

(** C1: whatever the backend sends, a complete event of [stream] carries
    as [Content] the concatenation, in emission order, of the payloads of
    all the content-delta events of the call; in particular when the
    fragments end with one whose done flag is set. *)
Theorem stream_complete_content (E : Env) (o : ollamaClient.t) (ctx : Context)
    (messages : list Message.t) (tools : list BaseTool)
    (response : ProviderResponse.t) :
  completesWith (stream o ctx messages tools) response ->
  String.concat "" (deltaPayloads (stream o ctx messages tools))
  = ProviderResponse.Content response.
Proof.
  intros (ev & Hin & Htype & Hresp).
  destruct (stream_shape o ctx messages tools)
    as (payloads & terminal & Hev & Hterm & _).
  rewrite Hev in *.
  assert (Hlast : isTerminal terminal = true).
  { destruct Hterm as [[err ->] | [usage ->]]; reflexivity. }
  rewrite (deltaPayloads_trace _ _ Hlast).
  apply in_app_or in Hin. destruct Hin as [Hin | [<- | []]].
  - apply in_map_iff in Hin. destruct Hin as (p & <- & _). discriminate.
  - destruct Hterm as [[err ->] | [usage ->]]; [discriminate|].
    simpl in Hresp. injection Hresp as <-. reflexivity.
Qed.

Lemma stream_complete_content_witness :
  String.concat ""
    (deltaPayloads (@stream countingBackend (client "") tt [userTurn "count"] []))
  = "12".
Proof.
  apply (stream_complete_content countingBackend (client "") tt
           [userTurn "count"] []
           (ProviderResponse.mk "12" (TokenUsage.mk 2 2) FinishReasonEndTurn)).
  exists (completeEvent
            (ProviderResponse.mk "12" (TokenUsage.mk 2 2) FinishReasonEndTurn)).
  vm_compute. repeat split. right. right. left. reflexivity.
Defined.

(* ===================================================================== *)
(* Streaming mode: the order of the events                               *)
(* ===================================================================== *)

(** C2: every trace of [stream] is a sequence of content-delta events
    followed by one terminal event: it holds exactly one terminal event,
    nothing follows a terminal event, and the payloads of the content-delta
    events are, in order, the first increments the backend delivered. *)
Theorem stream_event_order (E : Env) (o : ollamaClient.t) (ctx : Context)
    (messages : list Message.t) (tools : list BaseTool) :
  let events := stream o ctx messages tools in
  (exists payloads terminal,
      events = map deltaEvent payloads ++ [terminal]
      /\ isTerminal terminal = true
      /\ forall resp,
           answers o ctx messages true resp ->
           exists later,
             delivered (Body.data (Response.Body resp)) = payloads ++ later)
  /\ List.length (filter isTerminal events) = 1%nat
  /\ (forall before ev after,
        events = before ++ ev :: after ->
        isTerminal ev = true ->
        after = []).
Proof.
  intros events. subst events.
  destruct (stream_shape o ctx messages tools)
    as (payloads & terminal & Hev & Hterm & Hlater).
  assert (Hlast : isTerminal terminal = true).
  { destruct Hterm as [[err ->] | [usage ->]]; reflexivity. }
  rewrite Hev. split; [|split].
  - exists payloads, terminal. repeat split; assumption.
  - rewrite filter_app, filter_terminal_deltas. simpl. now rewrite Hlast.
  - intros before ev after Heq Hev'.
    now destruct (terminal_is_last _ _ _ _ _ Heq Hev').
Qed.

Lemma stream_event_order_witness :
  List.length
    (filter isTerminal
       (@stream countingBackend (client "") tt [userTurn "count"] []))
  = 1%nat.
Proof.
  apply (stream_event_order countingBackend (client "") tt [userTurn "count"] []).
Defined.

(* ===================================================================== *)
(* Streaming mode: the end of the stream                                 *)
(* ===================================================================== *)

Lemma serving_answers (status : Z) (data : list byte) (o : ollamaClient.t)
    (messages : list Message.t) (streaming : bool) :
  @answers (serving status data) o tt messages streaming
    (Response.mk status (Body.mk data io_EOF)).
Proof.
  unfold answers. simpl. eexists _, _. repeat split.
Qed.

(** C3 (as stated, fails on the code): fragments without the done flag
    followed by the end of the stream do not always close with a complete
    event; a fragment that carries an error string ends the call with an
    error event. *)
Lemma error_fragment_ends_with_error :
  ~ (forall (E : Env) (o : ollamaClient.t) (ctx : Context)
            (messages : list Message.t) (tools : list BaseTool)
            (resp : Response.t) (fragments : list ollamaResponse.t),
        answers o ctx messages true resp ->
        Response.StatusCode resp = http_StatusOK ->
        decodesTo (Body.data (Response.Body resp)) fragments ->
        Forall (fun f => ollamaResponse.Done f = false) fragments ->
        Body.fin (Response.Body resp) = io_EOF ->
        exists response,
          last (stream o ctx messages tools) (deltaEvent "")
          = completeEvent response).
Proof.
  intros H.
  destruct (H failingBackend (client "") tt [userTurn "go"] [] _
              failingFragments (serving_answers _ _ _ _ _) eq_refl
              eq_refl ltac:(repeat constructor) eq_refl)
    as [response Hlast].
  vm_compute in Hlast. discriminate.
Qed.

(** C3 (amended): when the backend is answered with status 200, its
    records decode to fragments none of which carries an error string or
    has the done flag set, and the body then ends, [stream] sends one
    content-delta event per non-empty content and closes with a complete
    event, not an error event, that carries the content accumulated from
    all the fragments. *)
Theorem stream_end_without_done (E : Env) (o : ollamaClient.t) (ctx : Context)
    (messages : list Message.t) (tools : list BaseTool) (resp : Response.t)
    (fragments : list ollamaResponse.t) :
  answers o ctx messages true resp ->
  Response.StatusCode resp = http_StatusOK ->
  decodesTo (Body.data (Response.Body resp)) fragments ->
  Forall continues fragments ->
  Body.fin (Response.Body resp) = io_EOF ->
  exists response,
    stream o ctx messages tools
    = map deltaEvent (increments fragments) ++ [completeEvent response]
    /\ ProviderResponse.Content response
       = String.concat "" (map contentOf fragments)
    /\ ProviderResponse.FinishReason response = FinishReasonEndTurn.
Proof.
  intros Hans Hstatus Hdec Hcont Hfin.
  rewrite (stream_answered o ctx messages tools resp Hans), Hstatus.
  simpl negb. cbv iota.
  destruct (Response.Body resp) as [data fin]. simpl in *. subst fin.
  rewrite (stream_loop_eof fragments data "" Hdec Hcont).
  eexists. split; [reflexivity|]. split; reflexivity.
Qed.

Lemma stream_end_without_done_witness :
  exists response,
    @stream unfinishedBackend (client "") tt [userTurn "go"] []
    = [deltaEvent "par"; deltaEvent "tial"; completeEvent response]
    /\ ProviderResponse.Content response = "partial"
    /\ ProviderResponse.FinishReason response = FinishReasonEndTurn.
Proof.
  apply (stream_end_without_done unfinishedBackend (client "") tt
           [userTurn "go"] [] _ unfinishedFragments
           (serving_answers _ _ _ _ _)).
  - reflexivity.
  - vm_compute. reflexivity.
  - repeat constructor.
  - reflexivity.
Defined.

(** C9: the usage a complete event of [stream] reports.  When the body
    delivers no fragment with the done flag set, the complete event, sent
    after the end of the stream, reports zero input and output tokens,
    whatever counters the fragments carried; otherwise it reports the
    prompt and completion counters of the fragment that has the flag
    set. *)
Theorem stream_complete_usage (E : Env) (o : ollamaClient.t) (ctx : Context)
    (messages : list Message.t) (tools : list BaseTool) (resp : Response.t)
    (response : ProviderResponse.t) :
  answers o ctx messages true resp ->
  completesWith (stream o ctx messages tools) response ->
  ProviderResponse.Usage response
  = match firstDone (Body.data (Response.Body resp)) with
    | None => TokenUsage.mk 0 0
    | Some final =>
        TokenUsage.mk
          (ollamaUsage.PromptTokens (ollamaResponse.Usage final))
          (ollamaUsage.CompletionTokens (ollamaResponse.Usage final))
    end.
Proof.
  intros Hans.
  rewrite (stream_answered o ctx messages tools resp Hans).
  destruct (negb _).
  - intros Hc. apply completesWith_single in Hc. discriminate.
  - apply stream_loop_usage.
Qed.

Lemma stream_complete_usage_witness :
  (@firstDone unfinishedBackend unfinishedData = None
   /\ TokenUsage.mk 0 0
      = match @firstDone unfinishedBackend unfinishedData with
        | None => TokenUsage.mk 0 0
        | Some final =>
            TokenUsage.mk
              (ollamaUsage.PromptTokens (ollamaResponse.Usage final))
              (ollamaUsage.CompletionTokens (ollamaResponse.Usage final))
        end)
  /\ TokenUsage.mk 2 2
     = match @firstDone countingBackend countingData with
       | None => TokenUsage.mk 0 0
       | Some final =>
           TokenUsage.mk
             (ollamaUsage.PromptTokens (ollamaResponse.Usage final))
             (ollamaUsage.CompletionTokens (ollamaResponse.Usage final))
       end.
Proof.
  split; [split; [reflexivity|]|].
  - apply (stream_complete_usage unfinishedBackend (client "") tt
             [userTurn "go"] []
             (Response.mk 200 (Body.mk unfinishedData io_EOF))
             (ProviderResponse.mk "partial" (TokenUsage.mk 0 0)
                FinishReasonEndTurn)
             (serving_answers _ _ _ _ _)).
    exists (completeEvent
              (ProviderResponse.mk "partial" (TokenUsage.mk 0 0)
                 FinishReasonEndTurn)).
    vm_compute. repeat split. right. right. left. reflexivity.
  - apply (stream_complete_usage countingBackend (client "") tt
             [userTurn "count"] []
             (Response.mk 200 (Body.mk countingData io_EOF))
             (ProviderResponse.mk "12" (TokenUsage.mk 2 2) FinishReasonEndTurn)
             (serving_answers _ _ _ _ _)).
    exists (completeEvent
              (ProviderResponse.mk "12" (TokenUsage.mk 2 2) FinishReasonEndTurn)).
    vm_compute. repeat split. right. right. left. reflexivity.
Defined.

(* ===================================================================== *)
(* Streaming mode: blank lines                                           *)
(* ===================================================================== *)

(** A blank line reaches the decoder: the line [ReadBytes] returns for it
    is the delimiter itself, of length one, so the guard on empty lines
    does not apply, and a decoder that rejects an input without a value
    ends the call with an error event. *)
Lemma stream_loop_blank_line (E : Env) (data : list byte) (fin : error)
    (fullContent : string) (err : error) :
  json_Unmarshal [LFb] = inr err ->
  stream_loop (Body.mk (LFb :: data) fin) fullContent
  = [errorEvent (Errorf_w "failed to unmarshal response: " err)].
Proof.
  intros Hdec. rewrite stream_loop_step. unfold ReadBytes. simpl.
  rewrite Hdec. reflexivity.
Qed.

(** C4 (fails on the code): a blank line ahead of a complete answer is
    not skipped; the call ends with the decoding error of the blank line
    and the answer is never read. *)
Theorem stream_blank_line_not_skipped :
  @stream keepAliveBackend (client "") tt [userTurn "hi"] []
  = [errorEvent
       (errorString "failed to unmarshal response: unexpected end of JSON input")]
  /\ @stream
       (serving 200 (wire "{'message':{'content':'hi'},'done':true}" ++ [LFb]))
       (client "") tt [userTurn "hi"] []
     = [deltaEvent "hi";
        completeEvent
          (ProviderResponse.mk "hi" (TokenUsage.mk 0 0) FinishReasonEndTurn)].
Proof.
  split; vm_compute; reflexivity.
Qed.

(* ===================================================================== *)
(* The status check                                                      *)
(* ===================================================================== *)

(** C5 (as stated, fails on the code): not every 2xx status keeps clear of
    the failure branch; with status 201 and a well-formed answer both modes
    fail with the body as the error text. *)
Lemma status_201_takes_failure_branch :
  ~ (forall status : Z,
        is2xx status = true ->
        @stream (serving status helloLine) (client "") tt [userTurn "hi"] []
        <> [errorEvent
              (Errorf_s "ollama API error: " (string_of_bytes helloLine))]
        /\ @send (serving status helloLine) (client "") tt [userTurn "hi"] []
           <> inr (Errorf_s "ollama API error: " (string_of_bytes helloLine))).
Proof.
  intros H. destruct (H 201%Z eq_refl) as [Hstream _].
  apply Hstream. vm_compute. reflexivity.
Qed.

(** C5 (amended): when the status of the answer is not 200, the call fails
    with the raw body as the error text: [send], once the body is read to
    its end, returns the error, and [stream] sends exactly one event, the
    error event.  When the status is 200 the branch is not taken: [send]
    goes on to decode the body and [stream] enters the read loop. *)
Theorem status_not_ok_fails (E : Env) (o : ollamaClient.t) (ctx : Context)
    (messages : list Message.t) (tools : list BaseTool) (resp : Response.t) :
  let body := Body.data (Response.Body resp) in
  (Response.StatusCode resp <> http_StatusOK ->
   (answers o ctx messages false resp ->
    Body.fin (Response.Body resp) = io_EOF ->
    send o ctx messages tools
    = inr (errorString ("ollama API error: " ++ string_of_bytes body)))
   /\ (answers o ctx messages true resp ->
       stream o ctx messages tools
       = [errorEvent
            (errorString ("ollama API error: " ++ string_of_bytes body))]))
  /\ (Response.StatusCode resp = http_StatusOK ->
      (answers o ctx messages false resp ->
       Body.fin (Response.Body resp) = io_EOF ->
       send o ctx messages tools
       = match json_Unmarshal body with
         | inr err => inr (Errorf_w "failed to unmarshal response: " err)
         | inl ollamaResp =>
             if nonempty (ollamaResponse.Error ollamaResp)
             then inr (Errorf_s "ollama API error: "
                         (ollamaResponse.Error ollamaResp))
             else
               inl (ProviderResponse.mk (contentOf ollamaResp)
                      (TokenUsage.mk
                         (ollamaUsage.PromptTokens (ollamaResponse.Usage ollamaResp))
                         (ollamaUsage.CompletionTokens
                            (ollamaResponse.Usage ollamaResp)))
                      FinishReasonEndTurn)
         end)
      /\ (answers o ctx messages true resp ->
          stream o ctx messages tools = stream_loop (Response.Body resp) "")).
Proof.
  intros body. subst body. split; intros Hstatus.
  - apply Z.eqb_neq in Hstatus. split.
    + intros Hans Hfin.
      rewrite (send_answered o ctx messages tools resp Hans).
      unfold io_ReadAll. rewrite Hfin, Hstatus. reflexivity.
    + intros Hans.
      rewrite (stream_answered o ctx messages tools resp Hans), Hstatus.
      reflexivity.
  - apply Z.eqb_eq in Hstatus. split.
    + intros Hans Hfin.
      rewrite (send_answered o ctx messages tools resp Hans).
      unfold io_ReadAll. rewrite Hfin, Hstatus. reflexivity.
    + intros Hans.
      rewrite (stream_answered o ctx messages tools resp Hans), Hstatus.
      reflexivity.
Qed.

Lemma status_not_ok_fails_witness :
  (@send (serving 500 (wire "model not found")) (client "") tt [userTurn "hi"] []
   = inr (errorString "ollama API error: model not found")
   /\ @stream (serving 500 (wire "model not found")) (client "") tt
        [userTurn "hi"] []
      = [errorEvent (errorString "ollama API error: model not found")])
  /\ @stream (serving 200 helloLine) (client "") tt [userTurn "hi"] []
     = @stream_loop (serving 200 helloLine) (Body.mk helloLine io_EOF) "".
Proof.
  split; [split|].
  - apply (proj1 (proj1 (status_not_ok_fails
                           (serving 500 (wire "model not found")) (client "") tt
                           [userTurn "hi"] []
                           (Response.mk 500 (Body.mk (wire "model not found") io_EOF)))
                    ltac:(discriminate))
             (serving_answers _ _ _ _ _) eq_refl).
  - apply (proj2 (proj1 (status_not_ok_fails
                           (serving 500 (wire "model not found")) (client "") tt
                           [userTurn "hi"] []
                           (Response.mk 500 (Body.mk (wire "model not found") io_EOF)))
                    ltac:(discriminate))
             (serving_answers _ _ _ _ _)).
  - apply (proj2 (proj2 (status_not_ok_fails
                           (serving 200 helloLine) (client "") tt
                           [userTurn "hi"] []
                           (Response.mk 200 (Body.mk helloLine io_EOF)))
                    eq_refl)
             (serving_answers _ _ _ _ _)).
Defined.

(* ===================================================================== *)
(* Synchronous mode: the decoded fragment                                *)
(* ===================================================================== *)

(** C6: when the answer has status 200 and its body decodes to a fragment,
    [send] fails with the error string of the fragment when that string is
    not empty, and otherwise succeeds with the message content of the
    fragment, its prompt and completion counters as input and output
    tokens, and the end-of-turn finish reason. *)
Theorem send_fragment_outcome (E : Env) (o : ollamaClient.t) (ctx : Context)
    (messages : list Message.t) (tools : list BaseTool) (resp : Response.t)
    (ollamaResp : ollamaResponse.t) :
  answers o ctx messages false resp ->
  Response.StatusCode resp = http_StatusOK ->
  Body.fin (Response.Body resp) = io_EOF ->
  json_Unmarshal (Body.data (Response.Body resp)) = inl ollamaResp ->
  (ollamaResponse.Error ollamaResp <> "" ->
   send o ctx messages tools
   = inr (errorString ("ollama API error: " ++ ollamaResponse.Error ollamaResp)))
  /\ (ollamaResponse.Error ollamaResp = "" ->
      send o ctx messages tools
      = inl (ProviderResponse.mk
               (ollamaMessage.Content (ollamaResponse.Message ollamaResp))
               (TokenUsage.mk
                  (ollamaUsage.PromptTokens (ollamaResponse.Usage ollamaResp))
                  (ollamaUsage.CompletionTokens (ollamaResponse.Usage ollamaResp)))
               FinishReasonEndTurn)).
Proof.
  intros Hans Hstatus Hfin Hdec.
  rewrite (send_answered o ctx messages tools resp Hans).
  unfold io_ReadAll. rewrite Hfin, Hstatus, Hdec. simpl negb. cbv iota.
  split; intros Herr.
  - apply nonempty_true in Herr. rewrite Herr. reflexivity.
  - apply nonempty_false in Herr. rewrite Herr. reflexivity.
Qed.

Lemma send_fragment_outcome_witness :
  @send (serving 200 helloLine) (client "") tt [userTurn "hi"] []
  = inl (ProviderResponse.mk "hello" (TokenUsage.mk 3 1) FinishReasonEndTurn)
  /\ @send (serving 200 (wire "{'error':'model not loaded'}")) (client "") tt
       [userTurn "hi"] []
     = inr (errorString "ollama API error: model not loaded").
Proof.
  split.
  - apply (proj2 (send_fragment_outcome (serving 200 helloLine) (client "") tt
                    [userTurn "hi"] [] _
                    (ollamaResponse.mk "" "" (ollamaMessage.mk "assistant" "hello")
                       true "" (ollamaUsage.mk 3 1 0))
                    (serving_answers _ _ _ _ _) eq_refl eq_refl
                    ltac:(vm_compute; reflexivity))
             eq_refl).
  - apply (proj1 (send_fragment_outcome
                    (serving 200 (wire "{'error':'model not loaded'}"))
                    (client "") tt [userTurn "hi"] [] _
                    (ollamaResponse.mk "" "" (ollamaMessage.mk "" "")
                       false "model not loaded" (ollamaUsage.mk 0 0 0))
                    (serving_answers _ _ _ _ _) eq_refl eq_refl
                    ltac:(vm_compute; reflexivity))
             ltac:(discriminate)).
Defined.

(* ===================================================================== *)
(* The end-to-end scenarios of the spec                                  *)
(* ===================================================================== *)

(** Scenario A: a buffered answer. *)
Example scenario_buffered :
  @send
    (serving 200
       (wire "{'message':{'role':'assistant','content':'hello'},'done':true,'usage':{'prompt_tokens':3,'completion_tokens':1}}"))
    (client "") tt [userTurn "hi"] []
  = inl (ProviderResponse.mk "hello" (TokenUsage.mk 3 1) FinishReasonEndTurn).
Proof. vm_compute. reflexivity. Qed.

(** Scenario B: three streamed records. *)
Example scenario_streamed :
  @stream countingBackend (client "") tt [userTurn "count"] []
  = [deltaEvent "1"; deltaEvent "2";
     completeEvent
       (ProviderResponse.mk "12" (TokenUsage.mk 2 2) FinishReasonEndTurn)].
Proof. vm_compute. reflexivity. Qed.

(** Scenario C: status 500 with a plain-text body. *)
Example scenario_model_not_found :
  @send (serving 500 (wire "model not found")) (client "") tt
    [userTurn "hi"] []
  = inr (errorString "ollama API error: model not found")
  /\ @stream (serving 500 (wire "model not found")) (client "") tt
       [userTurn "hi"] []
     = [errorEvent (errorString "ollama API error: model not found")].
Proof. split; vm_compute; reflexivity. Qed.

(** Data after the last delimiter is returned by [ReadBytes] together
    with [io.EOF] and is not decoded: a last record without its newline is
    lost, even when it carries the done flag. *)
Example unterminated_record_dropped :
  @stream
    (serving 200
       (wire "{'message':{'content':'1'},'done':false}" ++ [LFb]
          ++ wire "{'message':{'content':'2'},'done':true,'usage':{'prompt_tokens':2,'completion_tokens':2}}"))
    (client "") tt [userTurn "count"] []
  = [deltaEvent "1";
     completeEvent
       (ProviderResponse.mk "1" (TokenUsage.mk 0 0) FinishReasonEndTurn)].
Proof. vm_compute. reflexivity. Qed.

(** A read failure in the middle of the stream: the deltas already sent
    stay, and the call ends with an error event. *)
Example read_failure_after_delta :
  @stream
    (scripted
       (inl (Response.mk 200
               (Body.mk
                  (wire "{'message':{'content':'1'},'done':false}" ++ [LFb]
                     ++ wire "{'message':{'con")
                  (errorString "connection reset by peer")))))
    (client "") tt [userTurn "count"] []
  = [deltaEvent "1";
     errorEvent
       (errorString "error reading stream: connection reset by peer")].
Proof. vm_compute. reflexivity. Qed.

(* ===================================================================== *)
(* Further properties of the translator                                  *)
(* ===================================================================== *)

(** X1: a tool turn with N results is translated, in its place, to N user
    turns, one per result in order, each with the text
    "Tool result for <call id>: <content>"; its own text and tool calls
    are not translated. *)
Theorem convertMessages_tool_results (o : ollamaClient.t)
    (before after : list Message.t) (msg : Message.t) :
  Message.Role msg = Tool ->
  let turns :=
    map (fun result =>
           ollamaMessage.mk "user"
             ("Tool result for " ++ ToolResult.ToolCallID result ++ ": "
                ++ ToolResult.Content result))
      (Message.ToolResults msg) in
  List.length turns = List.length (Message.ToolResults msg)
  /\ convertMessages o (before ++ msg :: after)
     = convertMessages o before ++ turns ++ flat_map turnsOf after.
Proof.
  intros Hrole turns. subst turns. split; [apply length_map|].
  rewrite convertMessages_around. do 2 f_equal.
  unfold turnsOf, convertMessage. rewrite Hrole, toolResults_fold.
  reflexivity.
Qed.

Lemma convertMessages_tool_results_witness :
  convertMessages (client "")
    ([userTurn "run"]
       ++ Message.mk Tool "ignored" []
            [ToolResult.mk "call_1" "a.go"; ToolResult.mk "call_2" ""]
       :: [userTurn "thanks"])
  = [ollamaMessage.mk "user" "run";
     ollamaMessage.mk "user" "Tool result for call_1: a.go";
     ollamaMessage.mk "user" "Tool result for call_2: ";
     ollamaMessage.mk "user" "thanks"].
Proof.
  apply (proj2 (convertMessages_tool_results (client "") [userTurn "run"]
                  [userTurn "thanks"]
                  (Message.mk Tool "ignored" []
                     [ToolResult.mk "call_1" "a.go"; ToolResult.mk "call_2" ""])
                  eq_refl)).
Defined.

(** X2: a user turn is translated, in its place, to exactly one user turn
    that carries its text verbatim, also when the text is empty and
    whatever tool calls or results are attached to it. *)
Theorem convertMessages_user_turn (o : ollamaClient.t)
    (before after : list Message.t) (msg : Message.t) :
  Message.Role msg = User ->
  convertMessages o (before ++ msg :: after)
  = convertMessages o before
      ++ [ollamaMessage.mk "user" (Message.Content msg)]
      ++ flat_map turnsOf after.
Proof.
  intros Hrole. rewrite convertMessages_around. do 2 f_equal.
  unfold turnsOf, convertMessage. rewrite Hrole. reflexivity.
Qed.

Lemma convertMessages_user_turn_witness :
  convertMessages (client "be brief")
    ([] ++ Message.mk User "" [ToolCall.mk "c" "ls" "{}"] [] :: [userTurn "x"])
  = [ollamaMessage.mk "system" "be brief"; ollamaMessage.mk "user" "";
     ollamaMessage.mk "user" "x"].
Proof.
  apply (convertMessages_user_turn (client "be brief") [] [userTurn "x"]
           (Message.mk User "" [ToolCall.mk "c" "ls" "{}"] []) eq_refl).
Defined.

(** X3: an assistant turn with non-empty text and at least one tool call
    is translated to two assistant turns, in this order: its text, then
    the enumeration of the tool calls. *)
Theorem convertMessages_text_and_tool_calls (o : ollamaClient.t)
    (before after : list Message.t) (msg : Message.t) :
  Message.Role msg = Assistant ->
  Message.Content msg <> "" ->
  Message.ToolCalls msg <> [] ->
  convertMessages o (before ++ msg :: after)
  = convertMessages o before
      ++ [ollamaMessage.mk "assistant" (Message.Content msg);
          ollamaMessage.mk "assistant"
            (("I need to use the following tools:" ++ nl)
               ++ String.concat "" (map toolCallLine (Message.ToolCalls msg)))]
      ++ flat_map turnsOf after.
Proof.
  intros Hrole Hcontent Hcalls. rewrite convertMessages_around. do 2 f_equal.
  unfold turnsOf, convertMessage. rewrite Hrole.
  apply nonempty_true in Hcontent. rewrite Hcontent.
  rewrite toolCallsText_concat.
  destruct (Message.ToolCalls msg); [contradiction | reflexivity].
Qed.

Lemma convertMessages_text_and_tool_calls_witness :
  convertMessages (client "")
    ([] ++ Message.mk Assistant "Let me look." [ToolCall.mk "c" "ls" "{}"] []
       :: [])
  = [ollamaMessage.mk "assistant" "Let me look.";
     ollamaMessage.mk "assistant"
       ("I need to use the following tools:" ++ nl
          ++ "- Tool: ls" ++ nl ++ "  Arguments: {}" ++ nl)].
Proof.
  apply (convertMessages_text_and_tool_calls (client "") [] []
           (Message.mk Assistant "Let me look." [ToolCall.mk "c" "ls" "{}"] [])
           eq_refl ltac:(discriminate) ltac:(discriminate)).
Defined.

(** X4: an assistant turn with empty text and no tool call, and a tool
    turn with no result, leave no trace: the output is the output for the
    history without the turn. *)
Theorem convertMessages_silent_turns (o : ollamaClient.t)
    (before after : list Message.t) (msg : Message.t) :
  (Message.Role msg = Assistant
   /\ Message.Content msg = "" /\ Message.ToolCalls msg = [])
  \/ (Message.Role msg = Tool /\ Message.ToolResults msg = []) ->
  convertMessages o (before ++ msg :: after)
  = convertMessages o (before ++ after).
Proof.
  intros H.
  assert (Hturns : turnsOf msg = []).
  { unfold turnsOf, convertMessage.
    destruct H as [(-> & -> & ->) | (-> & ->)]; reflexivity. }
  rewrite convertMessages_around, Hturns.
  rewrite !convertMessages_shape, flat_map_app, <- app_assoc. reflexivity.
Qed.

Lemma convertMessages_silent_turns_witness :
  convertMessages (client "")
    ([userTurn "a"] ++ Message.mk Assistant "" [] [] :: [userTurn "b"])
  = convertMessages (client "") ([userTurn "a"] ++ [userTurn "b"])
  /\ convertMessages (client "")
       ([userTurn "a"] ++ Message.mk Tool "text" [] [] :: [userTurn "b"])
     = convertMessages (client "") ([userTurn "a"] ++ [userTurn "b"]).
Proof.
  split.
  - apply (convertMessages_silent_turns (client "") [userTurn "a"]
             [userTurn "b"] (Message.mk Assistant "" [] [])).
    left. repeat split.
  - apply (convertMessages_silent_turns (client "") [userTurn "a"]
             [userTurn "b"] (Message.mk Tool "text" [] [])).
    right. repeat split.
Defined.

(** X5: translation follows the history: the output for a history
    continued by more turns is the output for the history, followed by the
    output the continuation has without a system message. *)
Theorem convertMessages_app (o : ollamaClient.t)
    (history continuation : list Message.t) :
  convertMessages o (history ++ continuation)
  = convertMessages o history
      ++ convertMessages (withoutSystemMessage o) continuation.
Proof.
  rewrite !convertMessages_shape, flat_map_app, <- app_assoc. reflexivity.
Qed.

Lemma wireRole_turnsOf (msg : Message.t) :
  Forall (fun t => wireRole (ollamaMessage.Role t) = true) (turnsOf msg).
Proof.
  unfold turnsOf, convertMessage.
  destruct (Message.Role msg); simpl; auto.
  - destruct (nonempty (Message.Content msg)),
      (0 <? List.length (Message.ToolCalls msg))%nat; simpl; auto.
  - rewrite toolResults_fold. simpl.
    apply Forall_forall. intros t Ht. apply in_map_iff in Ht.
    destruct Ht as [r [<- _]]. reflexivity.
Qed.

(** X6: every Wire Turn the translator produces has the role system, user
    or assistant: no tool role, and no role taken from the history, ever
    reaches the wire. *)
Theorem convertMessages_wire_roles (o : ollamaClient.t)
    (messages : list Message.t) :
  Forall (fun t => wireRole (ollamaMessage.Role t) = true)
    (convertMessages o messages).
Proof.
  rewrite convertMessages_shape. apply Forall_app. split.
  - destruct (nonempty _); repeat constructor.
  - induction messages as [|msg messages IH]; simpl; [constructor|].
    apply Forall_app. split; [apply wireRole_turnsOf | exact IH].
Qed.

Lemma turnCount_turnsOf (msg : Message.t) :
  List.length (turnsOf msg) = turnCount msg.
Proof.
  unfold turnsOf, turnCount, convertMessage.
  destruct (Message.Role msg); try reflexivity.
  - destruct (nonempty (Message.Content msg)),
      (Message.ToolCalls msg); reflexivity.
  - rewrite toolResults_fold. simpl. apply length_map.
Qed.

(** X7: the number of Wire Turns of the output: one for a non-empty system
    message, one per user turn, one per tool result, and for an assistant
    turn one for a non-empty text plus one when it has tool calls. *)
Theorem convertMessages_length (o : ollamaClient.t)
    (messages : list Message.t) :
  List.length (convertMessages o messages)
  = ((if nonempty (providerClientOptions.systemMessage
                     (ollamaClient.providerOptions o))
      then 1 else 0)
     + list_sum (map turnCount messages))%nat.
Proof.
  rewrite convertMessages_shape, length_app. f_equal.
  - destruct (nonempty _); reflexivity.
  - induction messages as [|msg messages IH]; simpl; [reflexivity|].
    rewrite length_app, turnCount_turnsOf, IH. reflexivity.
Qed.

(* ===================================================================== *)
(* Further properties of the read loop                                   *)
(* ===================================================================== *)

Lemma recordsFrom_no_delimiter (tail pending : list byte) :
  ~ In LFb tail -> recordsFrom pending tail = [].
Proof.
  revert pending. induction tail as [|b tail IH]; intros pending H; simpl.
  - reflexivity.
  - destruct (Byte.eqb b LFb) eqn:Hb.
    + apply Byte.byte_dec_bl in Hb. subst b. exfalso. apply H. now left.
    + apply IH. intros Hin. apply H. now right.
Qed.

(** Data after the last delimiter adds no record. *)
Lemma records_tail (data tail : list byte) :
  ~ In LFb tail -> records (data ++ tail) = records data.
Proof.
  intros H. unfold records. generalize (@nil byte) as pending.
  induction data as [|b data IH]; intros pending; simpl.
  - now apply recordsFrom_no_delimiter.
  - destruct (Byte.eqb b LFb); [f_equal|]; apply IH.
Qed.

Section LoopCases.

Context {E : Env}.

(** The loop on a body with a first record: the outcome of the iteration
    that reads it. *)
Lemma stream_loop_head (data : list byte) (fin : error) (fullContent : string)
    (r : result ollamaResponse.t) (more : list (result ollamaResponse.t)) :
  map json_Unmarshal (records data) = r :: more ->
  exists rest,
    map json_Unmarshal (records rest) = more
    /\ stream_loop (Body.mk data fin) fullContent
       = match r with
         | inr err =>
             [errorEvent (Errorf_w "failed to unmarshal response: " err)]
         | inl ollamaResp =>
             if nonempty (ollamaResponse.Error ollamaResp)
             then [errorEvent (Errorf_s "ollama API error: "
                                 (ollamaResponse.Error ollamaResp))]
             else if ollamaResponse.Done ollamaResp
             then fst (sendDelta fullContent ollamaResp)
                    ++ [doneEvent (snd (sendDelta fullContent ollamaResp))
                          ollamaResp]
             else fst (sendDelta fullContent ollamaResp)
                    ++ stream_loop (Body.mk rest fin)
                         (snd (sendDelta fullContent ollamaResp))
         end.
Proof.
  intros H.
  destruct (records data) as [|line recs] eqn:Hrec; [discriminate|].
  simpl in H. injection H as Hline Hmore.
  destruct (records_cons data fin line recs Hrec) as [rest [Hread <-]].
  exists rest. split; [exact Hmore|].
  rewrite stream_loop_step, Hread, (ReadBytes_line_nonempty _ _ _ Hread), Hline.
  reflexivity.
Qed.

(** The loop sees a body through its records and the error it ends
    with. *)
Lemma stream_loop_records (recs : list (list byte)) :
  forall (d1 d2 : list byte) (fin : error) (fullContent : string),
    records d1 = recs ->
    records d2 = recs ->
    stream_loop (Body.mk d1 fin) fullContent
    = stream_loop (Body.mk d2 fin) fullContent.
Proof.
  induction recs as [|line recs IH]; intros d1 d2 fin fullContent H1 H2.
  - rewrite !stream_loop_step, (records_nil d1 fin H1), (records_nil d2 fin H2).
    reflexivity.
  - destruct (records_cons d1 fin line recs H1) as [r1 [Hread1 Hr1]].
    destruct (records_cons d2 fin line recs H2) as [r2 [Hread2 Hr2]].
    rewrite !stream_loop_step, Hread1, Hread2.
    destruct (List.length line =? 0)%nat; [now apply IH|].
    destruct (json_Unmarshal line) as [f|err]; [|reflexivity].
    destruct (nonempty (ollamaResponse.Error f)); [reflexivity|].
    destruct (ollamaResponse.Done f); [reflexivity|].
    f_equal. now apply IH.
Qed.

End LoopCases.

(** X8: the bytes after the last newline of the body are never decoded:
    the trace of an answered streaming call with status 200 is the trace
    the read loop has on the body cut after its last newline. *)
Theorem stream_ignores_unterminated_tail (E : Env) (o : ollamaClient.t)
    (ctx : Context) (messages : list Message.t) (tools : list BaseTool)
    (resp : Response.t) (complete tail : list byte) :
  answers o ctx messages true resp ->
  Response.StatusCode resp = http_StatusOK ->
  Body.data (Response.Body resp) = complete ++ tail ->
  ~ In LFb tail ->
  stream o ctx messages tools
  = stream_loop (Body.mk complete (Body.fin (Response.Body resp))) "".
Proof.
  intros Hans Hstatus Hdata Htail.
  rewrite (stream_answered o ctx messages tools resp Hans), Hstatus.
  simpl negb. cbv iota.
  destruct (Response.Body resp) as [data fin]. simpl in *. subst data.
  apply (stream_loop_records (records complete)); [|reflexivity].
  now apply records_tail.
Qed.

Lemma stream_ignores_unterminated_tail_witness :
  @stream (serving 200 (firstRecord ++ unterminatedRecord))
    (client "") tt [userTurn "count"] []
  = @stream_loop (serving 200 (firstRecord ++ unterminatedRecord))
      (Body.mk firstRecord io_EOF) "".
Proof.
  apply (stream_ignores_unterminated_tail
           (serving 200 (firstRecord ++ unterminatedRecord))
           (client "") tt [userTurn "count"] []
           (Response.mk 200 (Body.mk (firstRecord ++ unterminatedRecord) io_EOF))
           firstRecord unterminatedRecord
           (serving_answers _ _ _ _ _) eq_refl eq_refl).
  vm_compute. intros H.
  repeat (destruct H as [H | H]; [discriminate H|]). exact H.
Defined.

Lemma scripted_answers (resp : Response.t) (o : ollamaClient.t)
    (messages : list Message.t) (streaming : bool) :
  @answers (scripted (inl resp)) o tt messages streaming resp.
Proof.
  unfold answers. simpl. eexists _, _. repeat split.
Qed.

(** X9: the first fragment with the done flag ends the call with success:
    after fragments that neither fail nor end the call, it yields the
    content-delta events of all of them, its own included, then the
    complete event with the whole content and its own usage counters.
    Whatever the body holds after it, malformed records included, is never
    read. *)
Theorem stream_stops_at_done (E : Env) (o : ollamaClient.t) (ctx : Context)
    (messages : list Message.t) (tools : list BaseTool) (resp : Response.t)
    (fragments : list ollamaResponse.t) (final : ollamaResponse.t)
    (more : list (result ollamaResponse.t)) :
  answers o ctx messages true resp ->
  Response.StatusCode resp = http_StatusOK ->
  map json_Unmarshal (records (Body.data (Response.Body resp)))
  = map inl (fragments ++ [final]) ++ more ->
  Forall continues fragments ->
  ollamaResponse.Error final = "" ->
  ollamaResponse.Done final = true ->
  stream o ctx messages tools
  = map deltaEvent (increments (fragments ++ [final]))
      ++ [completeEvent
            (ProviderResponse.mk
               (String.concat "" (map contentOf (fragments ++ [final])))
               (TokenUsage.mk
                  (ollamaUsage.PromptTokens (ollamaResponse.Usage final))
                  (ollamaUsage.CompletionTokens (ollamaResponse.Usage final)))
               FinishReasonEndTurn)].
Proof.
  intros Hans Hstatus Hdec Hcont Herr Hdone.
  rewrite (stream_answered o ctx messages tools resp Hans), Hstatus.
  simpl negb. cbv iota.
  destruct (Response.Body resp) as [data fin]. simpl in *.
  rewrite map_app, <- app_assoc in Hdec. simpl in Hdec.
  destruct (stream_loop_continues fragments data fin "" _ Hdec Hcont)
    as [data' [Hmore Hrun]].
  destruct (stream_loop_head data' fin
              ("" ++ String.concat "" (increments fragments))%string
              _ _ Hmore) as [rest [_ Hstep]].
  rewrite Hrun, Hstep.
  apply nonempty_false in Herr. rewrite Herr, Hdone.
  rewrite sendDelta_increments. simpl fst. simpl snd.
  rewrite increments_app, map_app, <- app_assoc.
  rewrite <- concat_increments, increments_app, concat_app.
  reflexivity.
Qed.

Lemma stream_stops_at_done_witness :
  @stream (serving 200 overrunData) (client "") tt [userTurn "count"] []
  = [deltaEvent "1"; deltaEvent "2";
     completeEvent
       (ProviderResponse.mk "12" (TokenUsage.mk 5 2) FinishReasonEndTurn)].
Proof.
  apply (stream_stops_at_done (serving 200 overrunData) (client "") tt
           [userTurn "count"] [] _ [firstFragment] overrunFinal
           [inr json.invalidCharacter;
            inl (ollamaResponse.mk "" "" (ollamaMessage.mk "" "") false "late"
                   (ollamaUsage.mk 0 0 0))]
           (serving_answers _ _ _ _ _) eq_refl).
  - vm_compute. reflexivity.
  - repeat constructor.
  - reflexivity.
  - reflexivity.
Defined.

(** X10: a fragment with a non-empty error string ends the call with the
    error event "ollama API error: <error>".  The content-delta events
    already sent stay; the content and the done flag of the failing
    fragment are not looked at, and nothing after it is read. *)
Theorem stream_error_fragment (E : Env) (o : ollamaClient.t) (ctx : Context)
    (messages : list Message.t) (tools : list BaseTool) (resp : Response.t)
    (fragments : list ollamaResponse.t) (failing : ollamaResponse.t)
    (more : list (result ollamaResponse.t)) :
  answers o ctx messages true resp ->
  Response.StatusCode resp = http_StatusOK ->
  map json_Unmarshal (records (Body.data (Response.Body resp)))
  = map inl fragments ++ inl failing :: more ->
  Forall continues fragments ->
  ollamaResponse.Error failing <> "" ->
  stream o ctx messages tools
  = map deltaEvent (increments fragments)
      ++ [errorEvent
            (errorString
               ("ollama API error: " ++ ollamaResponse.Error failing))].
Proof.
  intros Hans Hstatus Hdec Hcont Herr.
  rewrite (stream_answered o ctx messages tools resp Hans), Hstatus.
  simpl negb. cbv iota.
  destruct (Response.Body resp) as [data fin]. simpl in *.
  destruct (stream_loop_continues fragments data fin "" _ Hdec Hcont)
    as [data' [Hmore Hrun]].
  destruct (stream_loop_head data' fin
              ("" ++ String.concat "" (increments fragments))%string
              _ _ Hmore) as [rest [_ Hstep]].
  rewrite Hrun, Hstep.
  apply nonempty_true in Herr. rewrite Herr. reflexivity.
Qed.

Lemma stream_error_fragment_witness :
  @stream (serving 200 loudErrorData) (client "") tt [userTurn "count"] []
  = [deltaEvent "1";
     errorEvent (errorString "ollama API error: out of memory")].
Proof.
  apply (stream_error_fragment (serving 200 loudErrorData) (client "") tt
           [userTurn "count"] [] _ [firstFragment] loudError []
           (serving_answers _ _ _ _ _) eq_refl).
  - vm_compute. reflexivity.
  - repeat constructor.
  - discriminate.
Defined.

(** X11: a record that does not decode ends the call with the error event
    "failed to unmarshal response: <cause>"; the content-delta events
    already sent stay and no complete event follows, whatever the later
    records hold. *)
Theorem stream_malformed_record (E : Env) (o : ollamaClient.t) (ctx : Context)
    (messages : list Message.t) (tools : list BaseTool) (resp : Response.t)
    (fragments : list ollamaResponse.t) (err : error)
    (more : list (result ollamaResponse.t)) :
  answers o ctx messages true resp ->
  Response.StatusCode resp = http_StatusOK ->
  map json_Unmarshal (records (Body.data (Response.Body resp)))
  = map inl fragments ++ inr err :: more ->
  Forall continues fragments ->
  stream o ctx messages tools
  = map deltaEvent (increments fragments)
      ++ [errorEvent
            (errorString
               ("failed to unmarshal response: " ++ error_text err))].
Proof.
  intros Hans Hstatus Hdec Hcont.
  rewrite (stream_answered o ctx messages tools resp Hans), Hstatus.
  simpl negb. cbv iota.
  destruct (Response.Body resp) as [data fin]. simpl in *.
  destruct (stream_loop_continues fragments data fin "" _ Hdec Hcont)
    as [data' [Hmore Hrun]].
  destruct (stream_loop_head data' fin
              ("" ++ String.concat "" (increments fragments))%string
              _ _ Hmore) as [rest [_ Hstep]].
  rewrite Hrun, Hstep. reflexivity.
Qed.

Lemma stream_malformed_record_witness :
  @stream (serving 200 malformedData) (client "") tt [userTurn "count"] []
  = [deltaEvent "1";
     errorEvent
       (errorString "failed to unmarshal response: unexpected end of JSON input")].
Proof.
  apply (stream_malformed_record (serving 200 malformedData) (client "") tt
           [userTurn "count"] [] _ [firstFragment] json.unexpectedEnd
           [inl firstFragment]
           (serving_answers _ _ _ _ _) eq_refl).
  - vm_compute. reflexivity.
  - repeat constructor.
Defined.

(** X12: a read failure other than the end of the stream, after fragments
    that neither fail nor end the call, ends the call with the error
    event "error reading stream: <cause>": the content-delta events already
    sent stay, and no complete event is sent for the accumulated
    content. *)
Theorem stream_read_failure (E : Env) (o : ollamaClient.t) (ctx : Context)
    (messages : list Message.t) (tools : list BaseTool) (resp : Response.t)
    (fragments : list ollamaResponse.t) (cause : string) :
  answers o ctx messages true resp ->
  Response.StatusCode resp = http_StatusOK ->
  decodesTo (Body.data (Response.Body resp)) fragments ->
  Forall continues fragments ->
  Body.fin (Response.Body resp) = errorString cause ->
  stream o ctx messages tools
  = map deltaEvent (increments fragments)
      ++ [errorEvent (errorString ("error reading stream: " ++ cause))].
Proof.
  intros Hans Hstatus Hdec Hcont Hfin.
  rewrite (stream_answered o ctx messages tools resp Hans), Hstatus.
  simpl negb. cbv iota.
  destruct (Response.Body resp) as [data fin]. simpl in *. subst fin.
  unfold decodesTo in Hdec. rewrite <- (app_nil_r (map inl fragments)) in Hdec.
  destruct (stream_loop_continues fragments data (errorString cause) "" []
              Hdec Hcont) as [data' [Hmore Hrun]].
  rewrite Hrun. f_equal.
  apply map_eq_nil in Hmore.
  rewrite stream_loop_step, (records_nil data' _ Hmore). reflexivity.
Qed.

Lemma stream_read_failure_witness :
  @stream
    (breaking 200 (firstRecord ++ unterminatedRecord)
       (errorString "context canceled"))
    (client "") tt [userTurn "count"] []
  = [deltaEvent "1";
     errorEvent (errorString "error reading stream: context canceled")].
Proof.
  apply (stream_read_failure
           (breaking 200 (firstRecord ++ unterminatedRecord)
              (errorString "context canceled"))
           (client "") tt [userTurn "count"] [] _ [firstFragment]
           "context canceled" (scripted_answers _ _ _ _) eq_refl).
  - vm_compute. reflexivity.
  - repeat constructor.
  - reflexivity.
Defined.

Lemma increments_nonempty (fragments : list ollamaResponse.t) :
  Forall (fun p => p <> "") (increments fragments).
Proof.
  unfold increments. apply Forall_forall. intros p Hp.
  apply filter_In in Hp. now apply nonempty_true.
Qed.

(** X13: no content-delta event of [stream] has an empty payload: a
    fragment with empty content sends no event. *)
Theorem stream_no_empty_delta (E : Env) (o : ollamaClient.t) (ctx : Context)
    (messages : list Message.t) (tools : list BaseTool) :
  Forall (fun payload => payload <> "")
    (deltaPayloads (stream o ctx messages tools)).
Proof.
  destruct (stream_cases o ctx messages tools) as [[resp Hans] | [err Herr]].
  - destruct (stream_shape o ctx messages tools)
      as (payloads & terminal & Hev & Hterm & Hlater).
    rewrite Hev, deltaPayloads_trace
      by (destruct Hterm as [[e ->] | [u ->]]; reflexivity).
    destruct (Hlater resp Hans) as [later Hpre].
    pose proof (increments_nonempty (decoded (Body.data (Response.Body resp))))
      as Hall.
    unfold delivered in Hpre. rewrite Hpre in Hall.
    now apply Forall_app in Hall.
  - rewrite Herr. constructor.
Qed.

(* ===================================================================== *)
(* Further properties of send and stream                                 *)
(* ===================================================================== *)

(** X14: a streaming call that fails before an answer is there sends
    exactly one event, an error event labelled with the step that failed:
    encoding the request, creating it, or sending it. *)
Theorem stream_fails_before_answer (E : Env) (o : ollamaClient.t)
    (ctx : Context) (messages : list Message.t) (tools : list BaseTool) :
  let reqBody :=
    ollamaRequest.mk (ollamaOptions.model (ollamaClient.options o))
      (convertMessages o messages) true in
  (forall err,
      json_Marshal reqBody = inr err ->
      stream o ctx messages tools
      = [errorEvent
           (errorString ("failed to marshal request: " ++ error_text err))])
  /\ (forall jsonData err,
         json_Marshal reqBody = inl jsonData ->
         newChatRequest o ctx jsonData = inr err ->
         stream o ctx messages tools
         = [errorEvent
              (errorString ("failed to create request: " ++ error_text err))])
  /\ (forall jsonData req err,
         json_Marshal reqBody = inl jsonData ->
         newChatRequest o ctx jsonData = inl req ->
         client_Do (Header_Set req "Content-Type" "application/json") = inr err ->
         stream o ctx messages tools
         = [errorEvent
              (errorString ("failed to send request: " ++ error_text err))]).
Proof.
  intros reqBody. subst reqBody. unfold stream, stream_goroutine.
  repeat split.
  - intros err ->. reflexivity.
  - intros j err -> ->. reflexivity.
  - intros j req err -> -> ->. reflexivity.
Qed.

Lemma stream_fails_before_answer_witness :
  @stream (failingAt StepMarshal (errorString "unsupported value"))
    (client "") tt [userTurn "hi"] []
  = [errorEvent (errorString "failed to marshal request: unsupported value")]
  /\ @stream (failingAt StepCreate (errorString "invalid URL"))
       (client "") tt [userTurn "hi"] []
     = [errorEvent (errorString "failed to create request: invalid URL")]
  /\ @stream (failingAt StepSend (errorString "connection refused"))
       (client "") tt [userTurn "hi"] []
     = [errorEvent (errorString "failed to send request: connection refused")].
Proof.
  split; [|split].
  - apply (proj1 (stream_fails_before_answer
                    (failingAt StepMarshal (errorString "unsupported value"))
                    (client "") tt [userTurn "hi"] [])
             (errorString "unsupported value") eq_refl).
  - apply (proj1 (proj2 (stream_fails_before_answer
                           (failingAt StepCreate (errorString "invalid URL"))
                           (client "") tt [userTurn "hi"] []))
             _ (errorString "invalid URL") eq_refl eq_refl).
  - apply (proj2 (proj2 (stream_fails_before_answer
                           (failingAt StepSend (errorString "connection refused"))
                           (client "") tt [userTurn "hi"] []))
             _ _ (errorString "connection refused") eq_refl eq_refl eq_refl).
Defined.

(** X15: a synchronous call that fails before an answer is there returns
    the error of the step that failed, labelled with that step: encoding
    the request, creating it, or sending it. *)
Theorem send_fails_before_answer (E : Env) (o : ollamaClient.t)
    (ctx : Context) (messages : list Message.t) (tools : list BaseTool) :
  let reqBody :=
    ollamaRequest.mk (ollamaOptions.model (ollamaClient.options o))
      (convertMessages o messages) false in
  (forall err,
      json_Marshal reqBody = inr err ->
      send o ctx messages tools
      = inr (errorString ("failed to marshal request: " ++ error_text err)))
  /\ (forall jsonData err,
         json_Marshal reqBody = inl jsonData ->
         newChatRequest o ctx jsonData = inr err ->
         send o ctx messages tools
         = inr (errorString ("failed to create request: " ++ error_text err)))
  /\ (forall jsonData req err,
         json_Marshal reqBody = inl jsonData ->
         newChatRequest o ctx jsonData = inl req ->
         client_Do (Header_Set req "Content-Type" "application/json") = inr err ->
         send o ctx messages tools
         = inr (errorString ("failed to send request: " ++ error_text err))).
Proof.
  intros reqBody. subst reqBody. unfold send.
  repeat split.
  - intros err ->. reflexivity.
  - intros j err Hj Hr. rewrite Hj. cbn [wrap bind]. rewrite Hr. reflexivity.
  - intros j req err Hj Hr Hd. rewrite Hj. cbn [wrap bind]. rewrite Hr.
    cbn [wrap bind]. rewrite Hd. reflexivity.
Qed.

Lemma send_fails_before_answer_witness :
  @send (failingAt StepMarshal (errorString "unsupported value"))
    (client "") tt [userTurn "hi"] []
  = inr (errorString "failed to marshal request: unsupported value")
  /\ @send (failingAt StepCreate (errorString "invalid URL"))
       (client "") tt [userTurn "hi"] []
     = inr (errorString "failed to create request: invalid URL")
  /\ @send (failingAt StepSend (errorString "connection refused"))
       (client "") tt [userTurn "hi"] []
     = inr (errorString "failed to send request: connection refused").
Proof.
  split; [|split].
  - apply (proj1 (send_fails_before_answer
                    (failingAt StepMarshal (errorString "unsupported value"))
                    (client "") tt [userTurn "hi"] [])
             (errorString "unsupported value") eq_refl).
  - apply (proj1 (proj2 (send_fails_before_answer
                           (failingAt StepCreate (errorString "invalid URL"))
                           (client "") tt [userTurn "hi"] []))
             _ (errorString "invalid URL") eq_refl eq_refl).
  - apply (proj2 (proj2 (send_fails_before_answer
                           (failingAt StepSend (errorString "connection refused"))
                           (client "") tt [userTurn "hi"] []))
             _ _ (errorString "connection refused") eq_refl eq_refl eq_refl).
Defined.

(** X16: in synchronous mode the body is read before the status is
    looked at: when the read fails, [send] returns
    "failed to read response: <cause>" whatever the status and whatever
    part of the body had arrived. *)
Theorem send_read_failure (E : Env) (o : ollamaClient.t) (ctx : Context)
    (messages : list Message.t) (tools : list BaseTool) (resp : Response.t)
    (cause : string) :
  answers o ctx messages false resp ->
  Body.fin (Response.Body resp) = errorString cause ->
  send o ctx messages tools
  = inr (errorString ("failed to read response: " ++ cause)).
Proof.
  intros Hans Hfin.
  rewrite (send_answered o ctx messages tools resp Hans).
  unfold io_ReadAll. rewrite Hfin. reflexivity.
Qed.

Lemma send_read_failure_witness :
  @send (breaking 500 (wire "model not fo") (errorString "unexpected EOF"))
    (client "") tt [userTurn "hi"] []
  = inr (errorString "failed to read response: unexpected EOF").
Proof.
  apply (send_read_failure
           (breaking 500 (wire "model not fo") (errorString "unexpected EOF"))
           (client "") tt [userTurn "hi"] [] _ "unexpected EOF"
           (scripted_answers _ _ _ _) eq_refl).
Defined.

(** X17: in synchronous mode a body with status 200 that does not decode
    makes [send] return "failed to unmarshal response: <cause>". *)
Theorem send_malformed_body (E : Env) (o : ollamaClient.t) (ctx : Context)
    (messages : list Message.t) (tools : list BaseTool) (resp : Response.t)
    (err : error) :
  answers o ctx messages false resp ->
  Response.StatusCode resp = http_StatusOK ->
  Body.fin (Response.Body resp) = io_EOF ->
  json_Unmarshal (Body.data (Response.Body resp)) = inr err ->
  send o ctx messages tools
  = inr (errorString ("failed to unmarshal response: " ++ error_text err)).
Proof.
  intros Hans Hstatus Hfin Hdec.
  rewrite (send_answered o ctx messages tools resp Hans).
  unfold io_ReadAll. rewrite Hfin, Hstatus, Hdec. reflexivity.
Qed.

Lemma send_malformed_body_witness :
  @send (serving 200 []) (client "") tt [userTurn "hi"] []
  = inr (errorString "failed to unmarshal response: unexpected end of JSON input").
Proof.
  apply (send_malformed_body (serving 200 []) (client "") tt [userTurn "hi"] []
           _ json.unexpectedEnd (serving_answers _ _ _ _ _)
           eq_refl eq_refl eq_refl).
Defined.

(** X18: [send] succeeds only on an answer with status 200 whose body was
    read to its end and decodes to a fragment without error string; the
    response is then built from that fragment and reports the end of
    turn. *)
Theorem send_success_inversion (E : Env) (o : ollamaClient.t) (ctx : Context)
    (messages : list Message.t) (tools : list BaseTool)
    (response : ProviderResponse.t) :
  send o ctx messages tools = inl response ->
  exists resp ollamaResp,
    answers o ctx messages false resp
    /\ Response.StatusCode resp = http_StatusOK
    /\ Body.fin (Response.Body resp) = io_EOF
    /\ json_Unmarshal (Body.data (Response.Body resp)) = inl ollamaResp
    /\ ollamaResponse.Error ollamaResp = ""
    /\ response
       = ProviderResponse.mk (contentOf ollamaResp)
           (TokenUsage.mk
              (ollamaUsage.PromptTokens (ollamaResponse.Usage ollamaResp))
              (ollamaUsage.CompletionTokens (ollamaResponse.Usage ollamaResp)))
           FinishReasonEndTurn.
Proof.
  intros Hsend.
  assert (Hans : exists resp, answers o ctx messages false resp).
  { unfold send in Hsend. unfold answers.
    destruct (json_Marshal _) as [j|e] eqn:Hj; [|discriminate].
    cbn [wrap bind] in Hsend.
    destruct (newChatRequest o ctx j) as [r|e] eqn:Hr; [|discriminate].
    cbn [wrap bind] in Hsend.
    destruct (client_Do _) as [resp|e] eqn:Hd; [|discriminate].
    exists resp, j, r. repeat split; assumption. }
  destruct Hans as [resp Hans].
  rewrite (send_answered o ctx messages tools resp Hans) in Hsend.
  unfold io_ReadAll in Hsend.
  destruct (Body.fin (Response.Body resp)) eqn:Hfin; [|discriminate].
  destruct (Response.StatusCode resp =? http_StatusOK)%Z eqn:Hstatus;
    [|discriminate].
  simpl negb in Hsend. cbv iota in Hsend.
  destruct (json_Unmarshal _) as [f|e] eqn:Hdec; [|discriminate].
  destruct (nonempty (ollamaResponse.Error f)) eqn:Herr; [discriminate|].
  injection Hsend as <-.
  exists resp, f. repeat split; try assumption.
  - now apply Z.eqb_eq.
  - now apply nonempty_false.
Qed.

Lemma send_success_inversion_witness :
  exists resp ollamaResp,
    @answers (serving 200 helloLine) (client "") tt [userTurn "hi"] false resp
    /\ Response.StatusCode resp = http_StatusOK
    /\ Body.fin (Response.Body resp) = io_EOF
    /\ @json_Unmarshal (serving 200 helloLine) (Body.data (Response.Body resp))
       = inl ollamaResp
    /\ ollamaResponse.Error ollamaResp = ""
    /\ ProviderResponse.mk "hello" (TokenUsage.mk 3 1) FinishReasonEndTurn
       = ProviderResponse.mk (contentOf ollamaResp)
           (TokenUsage.mk
              (ollamaUsage.PromptTokens (ollamaResponse.Usage ollamaResp))
              (ollamaUsage.CompletionTokens (ollamaResponse.Usage ollamaResp)))
           FinishReasonEndTurn.
Proof.
  apply (send_success_inversion (serving 200 helloLine) (client "") tt
           [userTurn "hi"] []).
  vm_compute. reflexivity.
Defined.

(** X19: on an answer with status 200 whose body is one record with the
    done flag set, both modes agree: when [send] returns a response,
    [stream] closes with the complete event that carries that response,
    after the content-delta event of the record; when [send] returns an
    error, [stream] sends the error event of that error and nothing
    else. *)
Theorem stream_agrees_with_send (E : Env) (o : ollamaClient.t) (ctx : Context)
    (messages : list Message.t) (tools : list BaseTool) (resp : Response.t)
    (ollamaResp : ollamaResponse.t) :
  answers o ctx messages false resp ->
  answers o ctx messages true resp ->
  Response.StatusCode resp = http_StatusOK ->
  Body.fin (Response.Body resp) = io_EOF ->
  records (Body.data (Response.Body resp)) = [Body.data (Response.Body resp)] ->
  json_Unmarshal (Body.data (Response.Body resp)) = inl ollamaResp ->
  ollamaResponse.Done ollamaResp = true ->
  match send o ctx messages tools with
  | inl response =>
      stream o ctx messages tools
      = map deltaEvent (increments [ollamaResp]) ++ [completeEvent response]
  | inr err => stream o ctx messages tools = [errorEvent err]
  end.
Proof.
  intros Hsend Hstream Hstatus Hfin Hrec Hdec Hdone.
  rewrite (send_answered o ctx messages tools resp Hsend).
  rewrite (stream_answered o ctx messages tools resp Hstream).
  unfold io_ReadAll. rewrite Hfin, Hstatus, Hdec. simpl negb. cbv iota.
  destruct (Response.Body resp) as [data fin]. simpl in *.
  assert (Hmap : map json_Unmarshal (records data) = [inl ollamaResp]).
  { rewrite Hrec. simpl. now rewrite Hdec. }
  destruct (stream_loop_head data fin "" _ _ Hmap) as [rest [_ Hstep]].
  rewrite Hstep, Hdone.
  destruct (nonempty (ollamaResponse.Error ollamaResp)); [reflexivity|].
  rewrite sendDelta_increments. simpl fst. simpl snd.
  rewrite concat_increments. simpl. reflexivity.
Qed.

Lemma stream_agrees_with_send_witness :
  @stream (serving 200 helloLine) (client "") tt [userTurn "hi"] []
  = [deltaEvent "hello";
     completeEvent
       (ProviderResponse.mk "hello" (TokenUsage.mk 3 1) FinishReasonEndTurn)].
Proof.
  apply (stream_agrees_with_send (serving 200 helloLine) (client "") tt
           [userTurn "hi"] [] _
           (ollamaResponse.mk "" "" (ollamaMessage.mk "assistant" "hello")
              true "" (ollamaUsage.mk 3 1 0))
           (serving_answers _ _ _ _ _) (serving_answers _ _ _ _ _)
           eq_refl eq_refl eq_refl eq_refl eq_refl).
Defined.

(* ===================================================================== *)
(* Properties of the client constructor and of the catalogue             *)
(* ===================================================================== *)

Lemma newOllamaClient_unfold (opts : providerClientOptions.t)
    (model : models.Model.t) (ollamaOptions_ : list OllamaOption) :
  newOllamaClient opts model ollamaOptions_
  = ollamaClient.mk opts
      (fold_left (fun (acc : ollamaOptions.t) (o : OllamaOption) => o acc)
         ollamaOptions_
         (ollamaOptions.mk "http://localhost:11434" (models.Model.APIModel model))).
Proof.
  unfold newOllamaClient. destruct (_ && _)%bool; reflexivity.
Qed.



(** X21: options are applied in order and the last one wins: a trailing
    [WithOllamaModel] fixes the model name and leaves the base URL of the
    options before it; a trailing [WithOllamaBaseURL] fixes the base URL and
    leaves the model name; the two kinds of option commute. *)
Theorem newOllamaClient_last_option_wins (opts : providerClientOptions.t)
    (model : models.Model.t) (ollamaOptions_ : list OllamaOption)
    (name baseURL : string) :
  let before := ollamaClient.options (newOllamaClient opts model ollamaOptions_) in
  ollamaClient.options
    (newOllamaClient opts model (ollamaOptions_ ++ [WithOllamaModel name]))
  = ollamaOptions.mk (ollamaOptions.baseURL before) name
  /\ ollamaClient.options
       (newOllamaClient opts model (ollamaOptions_ ++ [WithOllamaBaseURL baseURL]))
     = ollamaOptions.mk baseURL (ollamaOptions.model before)
  /\ newOllamaClient opts model
       (ollamaOptions_ ++ [WithOllamaModel name; WithOllamaBaseURL baseURL])
     = newOllamaClient opts model
         (ollamaOptions_ ++ [WithOllamaBaseURL baseURL; WithOllamaModel name]).
Proof.
  intros before. subst before.
  rewrite !newOllamaClient_unfold, !fold_left_app. simpl.
  repeat split.
Qed.

(** X22: the catalogue is a well-formed map: its keys are distinct, and
    every entry is found under its key, carries that key as ID, belongs to
    the ollama provider, costs nothing, and has a default output limit that
    is positive and fits its context window. *)
Theorem OllamaModels_consistent :
  NoDup (map fst models.OllamaModels)
  /\ Forall
       (fun entry =>
          let m := snd entry in
          models.lookup (fst entry) models.OllamaModels = Some m
          /\ models.Model.ID m = fst entry
          /\ models.Model.Provider m = models.ProviderOllama
          /\ (models.Model.CostPer1MIn m, models.Model.CostPer1MOut m,
              models.Model.CostPer1MInCached m, models.Model.CostPer1MOutCached m)
             = (0, 0, 0, 0)%Z
          /\ (0 < models.Model.DefaultMaxTokens m
              <= models.Model.ContextWindow m)%Z)
       models.OllamaModels.
Proof.
  split.
  - repeat constructor; simpl; intuition discriminate.
  - repeat constructor; simpl; try reflexivity; try discriminate.
Qed.

(** X23: a client built from a catalogue entry without options names the
    model of the entry, and that name is empty exactly for the custom
    model: the custom model needs a [WithOllamaModel] option, which then
    decides the name. *)
Theorem catalogue_client_model (opts : providerClientOptions.t)
    (id : models.ModelID) (m : models.Model.t) (name : string) :
  models.lookup id models.OllamaModels = Some m ->
  (ollamaOptions.model (ollamaClient.options (newOllamaClient opts m [])) = ""
   <-> id = models.OllamaCustom)
  /\ ollamaOptions.model
       (ollamaClient.options (newOllamaClient opts m [WithOllamaModel name]))
     = name.
Proof.
  intros Hlookup. rewrite !newOllamaClient_unfold. simpl.
  split; [|reflexivity].
  unfold models.OllamaModels, models.lookup in Hlookup.
  repeat match type of Hlookup with
         | (if (?k =? id)%string then _ else _) = _ =>
             let Hk := fresh "Hk" in
             destruct (String.eqb_spec k id) as [Hk | Hk];
             [ injection Hlookup as <-; subst id; simpl;
               split; intros H; (discriminate H || reflexivity) | ]
         end.
  discriminate.
Qed.

Lemma catalogue_client_model_witness :
  (ollamaOptions.model
     (ollamaClient.options
        (newOllamaClient (providerClientOptions.mk "")
           (models.Model.mk models.OllamaCustom "Ollama: Custom Model"
              models.ProviderOllama "" 0 0 0 0 8192 4096 false) []))
   = ""
   <-> models.OllamaCustom = models.OllamaCustom)
  /\ ollamaOptions.model
       (ollamaClient.options
          (newOllamaClient (providerClientOptions.mk "")
             (models.Model.mk models.OllamaCustom "Ollama: Custom Model"
                models.ProviderOllama "" 0 0 0 0 8192 4096 false)
             [WithOllamaModel "qwen"]))
     = "qwen".
Proof.
  apply (catalogue_client_model (providerClientOptions.mk "")
           models.OllamaCustom _ "qwen" eq_refl).
Defined.

(* ===================================================================== *)
(* The labels of failures                                                *)
(* ===================================================================== *)

Lemma labelled_w (labels : list string) (label : string) (err : error) :
  In label labels -> labelled labels (Errorf_w label err).
Proof.
  intros H. exists label, (error_text err). split; [exact H | reflexivity].
Qed.

Lemma labelled_s (labels : list string) (label detail : string) :
  In label labels -> labelled labels (Errorf_s label detail).
Proof.
  intros H. exists label, detail. split; [exact H | reflexivity].
Qed.

(** X24: every error [send] returns is labelled with the step that
    failed: its message starts with one of the six labels of the
    synchronous path; the sentinel of the end of a stream and bare causes
    are never returned. *)
Theorem send_errors_labelled (E : Env) (o : ollamaClient.t) (ctx : Context)
    (messages : list Message.t) (tools : list BaseTool) (err : error) :
  send o ctx messages tools = inr err ->
  labelled sendLabels err.
Proof.
  unfold send. intros H.
  destruct (json_Marshal _) as [j|e]; cbn [wrap bind] in H;
    [|injection H as <-; apply labelled_w; simpl; tauto].
  destruct (newChatRequest o ctx j) as [r|e]; cbn [wrap bind] in H;
    [|injection H as <-; apply labelled_w; simpl; tauto].
  destruct (client_Do _) as [resp|e]; cbn [wrap bind] in H;
    [|injection H as <-; apply labelled_w; simpl; tauto].
  destruct (io_ReadAll (Response.Body resp)) as [body [e|]];
    [injection H as <-; apply labelled_w; simpl; tauto|].
  destruct (negb _); [injection H as <-; apply labelled_s; simpl; tauto|].
  destruct (json_Unmarshal body) as [f|e]; cbn [wrap bind] in H;
    [|injection H as <-; apply labelled_w; simpl; tauto].
  destruct (nonempty _); [|discriminate].
  injection H as <-. apply labelled_s. simpl. tauto.
Qed.

Lemma send_errors_labelled_witness :
  labelled sendLabels (errorString "ollama API error: model not found").
Proof.
  apply (send_errors_labelled (serving 500 (wire "model not found"))
           (client "") tt [userTurn "hi"] []).
  vm_compute. reflexivity.
Defined.

Section LabelledLoop.

Context {E : Env}.

Lemma stream_loop_labelled (reader : Body.t) (fullContent : string)
    (ev : ProviderEvent.t) (err : error) :
  In ev (stream_loop reader fullContent) ->
  ProviderEvent.Error ev = Some err ->
  labelled streamLabels err.
Proof.
  funelim (stream_loop reader fullContent); clear Heqcall; intros Hin Herr;
    try rewrite sendDelta_increments in *; simpl fst in *; simpl snd in *.
  - destruct Hin as [<- | []]. discriminate.
  - destruct Hin as [<- | []]. injection Herr as <-.
    apply labelled_w. simpl. tauto.
  - eauto.
  - destruct Hin as [<- | []]. injection Herr as <-.
    apply labelled_w. simpl. tauto.
  - destruct Hin as [<- | []]. injection Herr as <-.
    apply labelled_s. simpl. tauto.
  - apply in_app_or in Hin. destruct Hin as [Hin | [<- | []]]; [|discriminate].
    apply in_map_iff in Hin. destruct Hin as (p & <- & _). discriminate.
  - apply in_app_or in Hin. destruct Hin as [Hin | Hin]; [|eauto].
    apply in_map_iff in Hin. destruct Hin as (p & <- & _). discriminate.
Qed.

End LabelledLoop.

(** X25: every error an event of [stream] carries is labelled with the
    step that failed: its message starts with one of the six labels of the
    streaming path; in particular the end of the stream is never reported
    as an error. *)
Theorem stream_errors_labelled (E : Env) (o : ollamaClient.t) (ctx : Context)
    (messages : list Message.t) (tools : list BaseTool)
    (ev : ProviderEvent.t) (err : error) :
  In ev (stream o ctx messages tools) ->
  ProviderEvent.Error ev = Some err ->
  labelled streamLabels err.
Proof.
  unfold stream, stream_goroutine. intros Hin Herr.
  destruct (json_Marshal _) as [j|e];
    [|destruct Hin as [<- | []]; injection Herr as <-;
      apply labelled_w; simpl; tauto].
  destruct (newChatRequest o ctx j) as [r|e];
    [|destruct Hin as [<- | []]; injection Herr as <-;
      apply labelled_w; simpl; tauto].
  destruct (client_Do _) as [resp|e];
    [|destruct Hin as [<- | []]; injection Herr as <-;
      apply labelled_w; simpl; tauto].
  destruct (negb _);
    [destruct Hin as [<- | []]; injection Herr as <-;
     apply labelled_s; simpl; tauto|].
  eapply stream_loop_labelled; eassumption.
Qed.

Lemma stream_errors_labelled_witness :
  labelled streamLabels (errorString "ollama API error: out of memory").
Proof.
  apply (stream_errors_labelled (serving 200 loudErrorData) (client "") tt
           [userTurn "count"] []
           (errorEvent (errorString "ollama API error: out of memory"))).
  - vm_compute. right. left. reflexivity.
  - reflexivity.
Defined.
